(** * TickTickBot: the browser client [static/script.js]

    The client keeps a small in-memory array of tasks that mirrors what the
    REST backend holds, renders it as a list, a calendar and three summary
    counters, and relays chat messages whose structured replies are turned
    into task operations.

    The embedding follows the script function by function.  Module state
    ([tasks], [deletedTask], the calendar widget) and the parts of the page
    the script writes to are fields of one [State] record.  An [async]
    function is a resumption: it runs until it either finishes or suspends
    at a network request, and is resumed with the outcome of that request. *)

From stdpp Require Import base list strings sorting pretty.
From Stdlib Require Import ZArith Lia.

Local Open Scope Z_scope.

(** ** JavaScript values *)

(** A property read off a JSON object: missing, [null], or a value. *)
Inductive Js (A : Type) : Type :=
| Undefined
| Null
| Val (a : A).
Arguments Undefined {A}.
Arguments Null {A}.
Arguments Val {A} a.

(** Truthiness, as used by [if], [!], [||] and [?:]. *)
Class Truthy (A : Type) := truthy : A -> bool.

#[global] Instance truthy_bool : Truthy bool := fun b => b.
#[global] Instance truthy_string : Truthy string :=
  fun s => match s with EmptyString => false | String _ _ => true end.
#[global] Instance truthy_Z : Truthy Z := fun n => negb (n =? 0).
#[global] Instance truthy_nat : Truthy nat :=
  fun n => match n with O => false | S _ => true end.
#[global] Instance truthy_option {A} `{Truthy A} : Truthy (option A) :=
  fun o => match o with Some a => truthy a | None => false end.
#[global] Instance truthy_Js {A} `{Truthy A} : Truthy (Js A) :=
  fun v => match v with Val a => truthy a | _ => false end.

(** [a || b] *)
Definition js_or {A} `{Truthy A} (a b : A) : A := if truthy a then a else b.

(** Conversion to text, as done by template literals and [String(...)]. *)
Class ToText (A : Type) := to_text : A -> string.

#[global] Instance to_text_string : ToText string := fun s => s.
#[global] Instance to_text_Z : ToText Z := fun n => pretty n.
#[global] Instance to_text_nat : ToText nat := fun n => pretty n.
#[global] Instance to_text_Js {A} `{ToText A} : ToText (Js A) :=
  fun v => match v with
           | Undefined => "undefined"
           | Null => "null"
           | Val a => to_text a
           end.

(** ASCII white space. *)
Definition is_white (c : Ascii.ascii) : bool :=
  let n := Ascii.nat_of_ascii c in
  (Nat.eqb n 32 || (Nat.leb 9 n && Nat.leb n 13))%bool.

(** [String.prototype.trim] strips the code points of WhiteSpace and
    LineTerminator off both ends: TAB, LF, VT, FF, CR, SP, NBSP, the rest
    of category Zs (U+1680, U+2000 to U+200A, U+202F, U+205F, U+3000), LS,
    PS and the byte order mark.  A string is held as its UTF-8 bytes. *)
Definition white_code_points : list N :=
  [0x09; 0x0A; 0x0B; 0x0C; 0x0D; 0x20; 0xA0; 0x1680;
   0x2000; 0x2001; 0x2002; 0x2003; 0x2004; 0x2005; 0x2006; 0x2007; 0x2008;
   0x2009; 0x200A; 0x2028; 0x2029; 0x202F; 0x205F; 0x3000; 0xFEFF]%N.

(** UTF-8 of a code point of the basic plane. *)
Definition utf8 (n : N) : list Ascii.ascii :=
  if (n <? 0x80)%N then [Ascii.ascii_of_N n]
  else if (n <? 0x800)%N then
    [Ascii.ascii_of_N (0xC0 + n / 64); Ascii.ascii_of_N (0x80 + n mod 64)]
  else
    [Ascii.ascii_of_N (0xE0 + n / 4096);
     Ascii.ascii_of_N (0x80 + (n / 64) mod 64);
     Ascii.ascii_of_N (0x80 + n mod 64)].

Definition white_space : list (list Ascii.ascii) := utf8 <$> white_code_points.

(** Takes one of [ws] off the front of [l], if [l] starts with one. *)
Definition strip (ws : list (list Ascii.ascii)) (l : list Ascii.ascii)
  : option (list Ascii.ascii) :=
  (fun found => drop (length found.2) l)
    <$> list_find (λ w, w `prefix_of` l) ws.

(** Does so as long as it can; [fuel] bounds the number of rounds, and the
    length of [l] is enough of it. *)
Fixpoint strip_all (ws : list (list Ascii.ascii)) (fuel : nat)
  (l : list Ascii.ascii) : list Ascii.ascii :=
  match fuel with
  | O => l
  | S fuel =>
      match strip ws l with
      | Some l' => strip_all ws fuel l'
      | None => l
      end
  end.

Definition trimStart (l : list Ascii.ascii) : list Ascii.ascii :=
  strip_all white_space (length l) l.

Definition trimEnd (l : list Ascii.ascii) : list Ascii.ascii :=
  reverse (strip_all (reverse <$> white_space) (length l) (reverse l)).

Definition trim (s : string) : string :=
  String.string_of_list_ascii
    (trimEnd (trimStart (String.list_ascii_of_string s))).

(** [Array.prototype.sort(cmp)]: a stable sort; [x] goes before [y] when
    [cmp x y <= 0] and [x] came first. *)
Fixpoint sort_insert {A} (cmp : A -> A -> Z) (x : A) (l : list A) : list A :=
  match l with
  | [] => [x]
  | y :: l' => if cmp x y <=? 0 then x :: l else y :: sort_insert cmp x l'
  end.

Definition sort {A} (cmp : A -> A -> Z) (l : list A) : list A :=
  foldr (sort_insert cmp) [] l.
Arguments sort : simpl never.

(** ** Data model *)

Record Task : Type := mkTask {
  id : Z;
  description : string;
  completed : bool;
  reminder : option string
}.

(** The [task] object of a PATCH response, merged into a local task with
    [Object.assign]: only the fields it carries are overwritten. *)
Record TaskFields : Type := mkTaskFields {
  f_id : option Z;
  f_description : option string;
  f_completed : option bool;
  f_reminder : option (option string)
}.

Definition assign (target : Task) (source : TaskFields) : Task :=
  {| id := default (id target) (f_id source);
     description := default (description target) (f_description source);
     completed := default (completed target) (f_completed source);
     reminder := default (reminder target) (f_reminder source) |}.

(** The assistant's action envelope. *)
Record Args : Type := mkArgs {
  a_description : Js string;
  a_reminder : Js string;
  task_number : Js Z;
  task_id : Js Z
}.

Definition no_args : Args := mkArgs Undefined Undefined Undefined Undefined.

Record Action : Type := mkAction {
  function : Js string;
  arguments : option Args;
  reply : Js string
}.

(** ** The page *)

(** One row of [#taskList]. *)
Record Row : Type := mkRow {
  ordinal : nat;
  row_description : string;
  row_reminderDate : string;
  row_reminderTime : string;
  row_completed : bool;
  row_id : Z
}.

(** One event of the calendar widget ([display: 'background']). *)
Record CalendarEvent : Type := mkCalendarEvent {
  ev_id : string;
  start : string
}.

(** One line of [#dayTasks]. *)
Record DayRow : Type := mkDayRow {
  day_ordinal : nat;
  day_description : string;
  day_time : string
}.

Record Overview : Type := mkOverview {
  totalTasks : nat;
  completedTasks : nat;
  pendingTasks : nat
}.

Record ChatMessage : Type := mkChatMessage {
  who : string;
  text : string
}.

Record State : Type := mkState {
  tasks : list Task;
  deletedTask : option Task;
  calendar : list CalendarEvent;
  taskList : list Row;
  overview : Overview;
  dayTasks : list DayRow;
  chatMessages : list ChatMessage;
  toast : list string;
  console : list string;
  taskInput : string;
  dateInput : string;
  timeInput : string;
  chatInput : string
}.

Definition set_tasks (v : list Task) (s : State) : State :=
  mkState v (deletedTask s) (calendar s) (taskList s) (overview s)
    (dayTasks s) (chatMessages s) (toast s) (console s) (taskInput s)
    (dateInput s) (timeInput s) (chatInput s).
Definition set_deletedTask (v : option Task) (s : State) : State :=
  mkState (tasks s) v (calendar s) (taskList s) (overview s)
    (dayTasks s) (chatMessages s) (toast s) (console s) (taskInput s)
    (dateInput s) (timeInput s) (chatInput s).
Definition set_calendar (v : list CalendarEvent) (s : State) : State :=
  mkState (tasks s) (deletedTask s) v (taskList s) (overview s)
    (dayTasks s) (chatMessages s) (toast s) (console s) (taskInput s)
    (dateInput s) (timeInput s) (chatInput s).
Definition set_taskList (v : list Row) (s : State) : State :=
  mkState (tasks s) (deletedTask s) (calendar s) v (overview s)
    (dayTasks s) (chatMessages s) (toast s) (console s) (taskInput s)
    (dateInput s) (timeInput s) (chatInput s).
Definition set_overview (v : Overview) (s : State) : State :=
  mkState (tasks s) (deletedTask s) (calendar s) (taskList s) v
    (dayTasks s) (chatMessages s) (toast s) (console s) (taskInput s)
    (dateInput s) (timeInput s) (chatInput s).
Definition set_dayTasks (v : list DayRow) (s : State) : State :=
  mkState (tasks s) (deletedTask s) (calendar s) (taskList s) (overview s)
    v (chatMessages s) (toast s) (console s) (taskInput s)
    (dateInput s) (timeInput s) (chatInput s).
Definition set_chatMessages (v : list ChatMessage) (s : State) : State :=
  mkState (tasks s) (deletedTask s) (calendar s) (taskList s) (overview s)
    (dayTasks s) v (toast s) (console s) (taskInput s)
    (dateInput s) (timeInput s) (chatInput s).
Definition set_toast (v : list string) (s : State) : State :=
  mkState (tasks s) (deletedTask s) (calendar s) (taskList s) (overview s)
    (dayTasks s) (chatMessages s) v (console s) (taskInput s)
    (dateInput s) (timeInput s) (chatInput s).
Definition set_console (v : list string) (s : State) : State :=
  mkState (tasks s) (deletedTask s) (calendar s) (taskList s) (overview s)
    (dayTasks s) (chatMessages s) (toast s) v (taskInput s)
    (dateInput s) (timeInput s) (chatInput s).
Definition set_inputs (task date time : string) (s : State) : State :=
  mkState (tasks s) (deletedTask s) (calendar s) (taskList s) (overview s)
    (dayTasks s) (chatMessages s) (toast s) (console s) task date time
    (chatInput s).
Definition set_chatInput (v : string) (s : State) : State :=
  mkState (tasks s) (deletedTask s) (calendar s) (taskList s) (overview s)
    (dayTasks s) (chatMessages s) (toast s) (console s) (taskInput s)
    (dateInput s) (timeInput s) v.

(** The page as served, before the script has run. *)
Definition initial : State :=
  mkState [] None [] [] (mkOverview 0 0 0) [] [] [] [] "" "" "" "".

(** ** Network requests *)

(** The body of a JSON response with an [ok] flag; [payload] is its [task]
    (or, for [/chat], its [result]). *)
Record Data (T : Type) : Type := mkData {
  ok : bool;
  payload : T
}.
Arguments mkData {T} ok payload.
Arguments ok {T} d.
Arguments payload {T} d.

(** The requests the script sends, indexed by the shape of the parsed
    response body. *)
Inductive Request : Type -> Type :=
| GET_tasks : Request (option (list Task))
| POST_tasks (description : string) (reminder : option string) :
    Request (Data Task)
| PATCH_completed (id : Z) (completed : bool) : Request (Data TaskFields)
| PATCH_edit (id : Z) (description : string) (reminder : option string) :
    Request (Data TaskFields)
| DELETE_task (id : Z) : Request (Data unit)
| POST_undo_delete : Request (Data Task)
| DELETE_reset : Request (Data unit)
| POST_chat (message : string) : Request (Data (option Action)).

(** What [await fetch(...)] followed by [await res.json()] yields: the
    parsed body, or an exception (network failure, body that is not JSON). *)
Inductive FetchResult (R : Type) : Type :=
| Rejected (err : string)
| Resolved (data : R).
Arguments Rejected {R} err.
Arguments Resolved {R} data.

(** ** Asynchronous computations *)

Inductive Completion (A : Type) : Type :=
| Normal (a : A)
| Throw (err : string).
Arguments Normal {A} a.
Arguments Throw {A} err.

(** [Finish s c]: ran to the end in state [s].  [Await s req k]: sent [req]
    and gave control back to the event loop in state [s]; [k] resumes with
    the outcome of the request and the state found at that time. *)
Inductive Async (A : Type) : Type :=
| Finish (s : State) (c : Completion A)
| Await {R : Type} (s : State) (req : Request R)
    (k : FetchResult R -> State -> Async A).
Arguments Finish {A} s c.
Arguments Await {A R} s req k.

Definition M (A : Type) : Type := State -> Async A.

Definition ret {A} (a : A) : M A := fun s => Finish s (Normal a).
Definition throw {A} (err : string) : M A := fun s => Finish s (Throw err).

Fixpoint bind_async {A B} (p : Async A) (f : A -> M B) : Async B :=
  match p with
  | Finish s (Normal a) => f a s
  | Finish s (Throw err) => Finish s (Throw err)
  | Await s req k => Await s req (fun r s' => bind_async (k r s') f)
  end.

Definition bind {A B} (m : M A) (f : A -> M B) : M B :=
  fun s => bind_async (m s) f.

Fixpoint catch_async {A} (p : Async A) (h : string -> M A) : Async A :=
  match p with
  | Finish s (Normal a) => Finish s (Normal a)
  | Finish s (Throw err) => h err s
  | Await s req k => Await s req (fun r s' => catch_async (k r s') h)
  end.

(** [try { m } catch (err) { h err }] *)
Definition try_catch {A} (m : M A) (h : string -> M A) : M A :=
  fun s => catch_async (m s) h.

Notation "x <- m ;; k" := (bind m (fun x => k))
  (at level 100, m at next level, right associativity).
Notation "m ;; k" := (bind m (fun _ => k))
  (at level 100, right associativity).

Definition gets {A} (f : State -> A) : M A := fun s => Finish s (Normal (f s)).
Definition modify (f : State -> State) : M unit :=
  fun s => Finish (f s) (Normal tt).

(** [const data = await (await fetch(req)).json()] *)
Definition fetch {R} (req : Request R) : M R :=
  fun s => Await s req (fun r s' =>
    match r with
    | Rejected err => Finish s' (Throw err)
    | Resolved data => Finish s' (Normal data)
    end).

(** Calling an [async] function without [await]: the callee runs up to its
    first suspension, the caller goes on (here with [rest], which touches
    the page only), and the callee's continuation runs when its request
    settles. *)
Definition detached (m : M unit) (rest : State -> State) : M unit :=
  fun s => match m s with
           | Finish s' _ => Finish (rest s') (Normal tt)
           | Await s' req k => Await (rest s') req k
           end.

(** ** The script *)

Section Script.

(** [new Date(r).toLocaleDateString()] and
    [new Date(r).toLocaleTimeString([], {hour: '2-digit', minute: '2-digit'})],
    which depend on the browser's locale. *)
Variable toLocaleDateString : string -> string.
Variable toLocaleTimeString : string -> string.

(** *** Utilities *)

Definition showToast (msg : string) : M unit :=
  modify (fun s => set_toast (toast s ++ [msg]) s).

Definition console_error (err : string) : M unit :=
  modify (fun s => set_console (console s ++ [err]) s).

(** [task.reminder ? f(task.reminder) : ""] *)
Definition formatted (f : string -> string) (r : option string) : string :=
  match r with
  | Some r => if truthy r then f r else ""
  | None => ""
  end.

(** *** Load & render *)

Definition by_id (a b : Task) : Z := id a - id b.

Definition render_row (index : nat) (task : Task) : Row :=
  {| ordinal := index + 1;
     row_description := description task;
     row_reminderDate := formatted toLocaleDateString (reminder task);
     row_reminderTime := formatted toLocaleTimeString (reminder task);
     row_completed := completed task;
     row_id := id task |}.

Definition renderTasks : M unit :=
  modify (fun s =>
    let sorted := sort by_id (tasks s) in
    set_taskList (imap render_row sorted) (set_tasks sorted s)).

Definition updateOverview : M unit :=
  modify (fun s =>
    set_overview
      {| totalTasks := length (tasks s);
         completedTasks := length (filter (λ t, Is_true (completed t)) (tasks s));
         pendingTasks :=
           length (filter (λ t, Is_true (negb (completed t))) (tasks s)) |}
      s).

(** *** Calendar *)

Definition addEvent (cal : list CalendarEvent) (task : Task)
  : list CalendarEvent :=
  match reminder task with
  | Some r =>
      if truthy r
      then cal ++ [{| ev_id := to_text (id task); start := r |}]
      else cal
  | None => cal
  end.

Definition renderCalendar : M unit :=
  modify (fun s => set_calendar (foldl addEvent [] (tasks s)) s).

(** [t.reminder && t.reminder.startsWith(dateStr)] *)
Definition on_day (dateStr : string) (t : Task) : bool :=
  match reminder t with
  | Some r => truthy r && String.prefix dateStr r
  | None => false
  end.

Definition day_row (i : nat) (task : Task) : DayRow :=
  {| day_ordinal := i + 1;
     day_description := description task;
     day_time := toLocaleTimeString (default "" (reminder task)) |}.

Definition showDayTasks (dateStr : string) : M unit :=
  modify (fun s =>
    let dayTasks := filter (λ t, Is_true (on_day dateStr t)) (tasks s) in
    set_dayTasks (imap day_row dayTasks) s).

Definition loadTasks : M unit :=
  try_catch
    (data <- fetch GET_tasks;;
     modify (set_tasks (default [] data));;
     renderTasks;;
     renderCalendar;;
     updateOverview)
    (fun err =>
       console_error err;;
       showToast "Failed to load tasks").

(** *** CRUD *)

(** A parameter with default [null]. *)
Definition or_null {A} (v : Js A) : option A :=
  match v with Val a => Some a | _ => None end.

Definition addTask (description : Js string) (reminder : Js string) : M unit :=
  match description with
  | Val description =>
      if negb (truthy description) then ret tt
      else
        try_catch
          (data <- fetch (POST_tasks description (or_null reminder));;
           if ok data then
             modify (fun s => set_tasks (tasks s ++ [payload data]) s);;
             renderTasks;;
             renderCalendar;;
             updateOverview;;
             showToast "Task added"
           else ret tt)
          (fun err =>
             console_error err;;
             showToast "Failed to add task")
  | _ => ret tt
  end.

Definition addTaskFromUI : M unit :=
  desc <- gets (fun s => trim (taskInput s));;
  date <- gets dateInput;;
  time <- gets timeInput;;
  if negb (truthy desc) then showToast "Enter task description"
  else
    let reminder :=
      if truthy date
      then Val (if truthy time then date +:+ "T" +:+ time
                else date +:+ "T00:00")
      else Null in
    detached (addTask (Val desc) reminder) (set_inputs "" "" "").

(** [tasks.find(t => t.id === id)], with the position of the task found. *)
Definition find_task (tid : Z) (l : list Task) : option (nat * Task) :=
  list_find (λ t, id t = tid) l.

(** [Object.assign(task, fields)] on the task found at position [idx]. *)
Definition assign_at (idx : nat) (fields : TaskFields) (s : State) : State :=
  set_tasks (alter (fun task => assign task fields) idx (tasks s)) s.

Definition toggleComplete (tid : Z) : M unit :=
  found <- gets (fun s => find_task tid (tasks s));;
  match found with
  | None => ret tt
  | Some (idx, task) =>
      try_catch
        (data <- fetch (PATCH_completed tid (negb (completed task)));;
         if ok data then
           modify (assign_at idx (payload data));;
           renderTasks;;
           updateOverview
         else ret tt)
        (fun err => console_error err)
  end.

(** [newDesc] and [newReminder] are what the user answers to the two
    prompts ([None] when a prompt is cancelled). *)
Definition editTask (tid : Z) (newDesc newReminder : option string) : M unit :=
  found <- gets (fun s => find_task tid (tasks s));;
  match found with
  | None => ret tt
  | Some (idx, task) =>
      match newDesc with
      | None => ret tt
      | Some newDesc =>
          try_catch
            (data <- fetch (PATCH_edit tid (trim newDesc)
                              (js_or newReminder None));;
             if ok data then
               modify (assign_at idx (payload data));;
               renderTasks;;
               renderCalendar;;
               updateOverview;;
               showToast "Task updated"
             else ret tt)
            (fun err => console_error err)
      end
  end.

Definition deleteTask (tid : Z) : M unit :=
  found <- gets (fun s => find_task tid (tasks s));;
  match found with
  | None => ret tt
  | Some (_, task) =>
      modify (set_deletedTask (Some task));;
      try_catch
        (data <- fetch (DELETE_task tid);;
         if ok data then
           modify (fun s => set_tasks (filter (λ t, id t ≠ tid) (tasks s)) s);;
           renderTasks;;
           renderCalendar;;
           updateOverview;;
           showToast "Task deleted"
         else ret tt)
        (fun err => console_error err)
  end.

Definition undoDelete : M unit :=
  deleted <- gets deletedTask;;
  match deleted with
  | None => showToast "Nothing to undo"
  | Some _ =>
      try_catch
        (data <- fetch POST_undo_delete;;
         if ok data then
           modify (fun s => set_tasks (tasks s ++ [payload data]) s);;
           renderTasks;;
           renderCalendar;;
           updateOverview;;
           modify (set_deletedTask None);;
           showToast "Restored last deleted task"
         else ret tt)
        (fun err => console_error err)
  end.

(** [confirmed] is the user's answer to the confirmation dialog. *)
Definition resetTasks (confirmed : bool) : M unit :=
  if negb confirmed then ret tt
  else
    try_catch
      (data <- fetch DELETE_reset;;
       if ok data then
         modify (set_tasks []);;
         renderTasks;;
         renderCalendar;;
         updateOverview;;
         showToast "All tasks cleared"
       else ret tt)
      (fun err => console_error err).

(** *** Chat *)

Definition appendMessage (text who : string) : M unit :=
  modify (fun s => set_chatMessages (chatMessages s ++ [mkChatMessage who text]) s).

(** Reading [.id] off [tasks[idx]] when there is no such element. *)
Definition TypeError_id : string :=
  "Cannot read properties of undefined (reading 'id')".

(** Maps a user-visible task number to the real id.  [undefined - 1] is
    [NaN], which passes both range tests and indexes nothing; [null - 1]
    is [-1]. *)
Definition getTaskIdByNumber (number : Js Z) : M (option Z) :=
  tasks <- gets tasks;;
  match number with
  | Undefined => throw TypeError_id
  | Null => ret None
  | Val number =>
      let idx := number - 1 in
      if (idx <? 0) || (Z.of_nat (length tasks) <=? idx) then ret None
      else
        match tasks !! Z.to_nat idx with
        | Some task => ret (Some (id task))
        | None => throw TypeError_id
        end
  end.

(** How a [case] of the [switch] ends. *)
Inductive Flow : Type := Break | Return.

Definition view_line (i : nat) (t : Task) : ChatMessage :=
  mkChatMessage "ai"
    (to_text (i + 1)%nat +:+ ". " +:+ description t +:+ " "
     +:+ formatted toLocaleDateString (reminder t) +:+ " "
     +:+ formatted toLocaleTimeString (reminder t)).

Definition handleChatAction (confirmed : bool) (action : option Action)
  : M unit :=
  match action with
  | None => ret tt
  | Some action =>
      if negb (truthy (function action)) then
        if truthy (reply action) then appendMessage (to_text (reply action)) "ai"
        else ret tt
      else
        let fn := to_text (function action) in
        let args := default no_args (arguments action) in
        try_catch
          (flow <-
             (if String.eqb fn "addTask" then
                addTask (a_description args) (a_reminder args);;
                appendMessage ("✅ Added task: " +:+ to_text (a_description args)) "ai";;
                ret Break
              else if String.eqb fn "viewTasks" then
                empty <- gets (fun s => negb (truthy (length (tasks s))));;
                (if empty : bool then appendMessage "📋 No tasks yet." "ai"
                 else modify (fun s =>
                   set_chatMessages (chatMessages s ++ imap view_line (tasks s)) s));;
                ret Break
              else if String.eqb fn "completeTask" then
                realId <- getTaskIdByNumber (js_or (task_number args) (task_id args));;
                match realId with
                | Some realId =>
                    if negb (truthy realId) then
                      appendMessage "⚠️ Invalid task number." "ai";; ret Return
                    else
                      toggleComplete realId;;
                      appendMessage
                        ("✅ Toggled completion of task #"
                         +:+ to_text (js_or (task_number args) (task_id args))) "ai";;
                      ret Break
                | None =>
                    appendMessage "⚠️ Invalid task number." "ai";; ret Return
                end
              else if String.eqb fn "deleteTask" then
                realId <- getTaskIdByNumber (js_or (task_number args) (task_id args));;
                match realId with
                | Some realId =>
                    if negb (truthy realId) then
                      appendMessage "⚠️ Invalid task number." "ai";; ret Return
                    else
                      deleteTask realId;;
                      appendMessage
                        ("🗑 Deleted task #"
                         +:+ to_text (js_or (task_number args) (task_id args))) "ai";;
                      ret Break
                | None =>
                    appendMessage "⚠️ Invalid task number." "ai";; ret Return
                end
              else if String.eqb fn "undoDelete" then
                undoDelete;;
                appendMessage "♻️ Restored last deleted task" "ai";;
                ret Break
              else if String.eqb fn "resetAll" then
                resetTasks confirmed;;
                appendMessage "🗑 Cleared all tasks" "ai";;
                ret Break
              else
                (if truthy (reply action)
                 then appendMessage (to_text (reply action)) "ai"
                 else ret tt);;
                ret Break);;
           match flow with
           | Return => ret tt
           | Break =>
               (* Update UI after every action *)
               renderTasks;;
               renderCalendar;;
               updateOverview
           end)
          (fun err =>
             console_error err;;
             appendMessage ("⚠️ " +:+ err) "ai")
  end.

Definition sendMessage (confirmed : bool) : M unit :=
  msg <- gets (fun s => trim (chatInput s));;
  if negb (truthy msg) then ret tt
  else
    appendMessage msg "user";;
    modify (set_chatInput "");;
    try_catch
      (data <- fetch (POST_chat msg);;
       if negb (ok data) then appendMessage "⚠️ Error" "ai"
       else handleChatAction confirmed (payload data))
      (fun err =>
         console_error err;;
         appendMessage "⚠️ Error" "ai").

Definition clearChat : M unit := modify (set_chatMessages []).

End Script.

(** ** Running the handlers *)

(** The state in which a computation hands control back to the event loop:
    at its end, or at its first request. *)
Definition state_of {A} (p : Async A) : State :=
  match p with
  | Finish s _ => s
  | Await s _ _ => s
  end.

(** Whether a computation got to its end without sending a request. *)
Definition no_request {A} (p : Async A) : bool :=
  match p with
  | Finish _ _ => true
  | Await _ _ _ => false
  end.

(** What the user can do on the page. *)
Inductive Event : Type :=
| PageLoad
| FillForm (task date time : string)
| ClickAdd
| ClickToggle (tid : Z)
| ClickEdit (tid : Z) (newDesc newReminder : option string)
| ClickDelete (tid : Z)
| ClickUndo
| ClickReset (confirmed : bool)
| ClickDate (dateStr : string)
| TypeChat (msg : string)
| ClickSend (confirmed : bool)
| ClickClearChat.

Section Run.

Variable toLocaleDateString : string -> string.
Variable toLocaleTimeString : string -> string.

(** A backend: any state machine that answers each request with a body of
    the right shape, or fails. *)
Variable Server : Type.
Variable respond : forall R, Request R -> Server -> FetchResult R * Server.

(** One handler at a time: a suspended computation is resumed with the
    answer of the backend before anything else happens on the page. *)
Fixpoint run {A} (p : Async A) (srv : Server) : State * Server :=
  match p with
  | Finish s _ => (s, srv)
  | Await s req k =>
      let (r, srv') := respond _ req srv in
      run (k r s) srv'
  end.

Definition handler (ev : Event) : M unit :=
  match ev with
  | PageLoad => loadTasks toLocaleDateString toLocaleTimeString
  | FillForm task date time => modify (set_inputs task date time)
  | ClickAdd => addTaskFromUI toLocaleDateString toLocaleTimeString
  | ClickToggle tid => toggleComplete toLocaleDateString toLocaleTimeString tid
  | ClickEdit tid newDesc newReminder =>
      editTask toLocaleDateString toLocaleTimeString tid newDesc newReminder
  | ClickDelete tid => deleteTask toLocaleDateString toLocaleTimeString tid
  | ClickUndo => undoDelete toLocaleDateString toLocaleTimeString
  | ClickReset confirmed =>
      resetTasks toLocaleDateString toLocaleTimeString confirmed
  | ClickDate dateStr => showDayTasks toLocaleTimeString dateStr
  | TypeChat msg => modify (set_chatInput msg)
  | ClickSend confirmed =>
      sendMessage toLocaleDateString toLocaleTimeString confirmed
  | ClickClearChat => clearChat
  end.

Definition run_events (evs : list Event) (s : State) (srv : Server)
  : State * Server :=
  foldl (fun '(s, srv) ev => run (handler ev s) srv) (s, srv) evs.

End Run.

(** Every way a computation can end, whatever the requests it sends come
    back with. *)
Fixpoint ends_with {A} (P : State -> Prop) (p : Async A) : Prop :=
  match p with
  | Finish s _ => P s
  | Await s _ k => forall r, ends_with P (k r s)
  end.

(** ** Specification vocabulary *)

(** Ascending id order, on tasks and on the rows that show them. *)
Definition ascending : relation Task := fun a b => id a <= id b.
Definition rows_ascending : relation Row := fun a b => row_id a <= row_id b.

(** The counters a list of tasks calls for. *)
Definition count_tasks (l : list Task) : Overview :=
  {| totalTasks := length l;
     completedTasks := length (filter (λ t, completed t = true) l);
     pendingTasks := length (filter (λ t, completed t = false) l) |}.

(** The calendar marker of a task whose reminder is present (neither
    [null] nor the empty string). *)
Definition marker (t : Task) : option CalendarEvent :=
  match reminder t with
  | Some r => if truthy r then Some {| ev_id := to_text (id t); start := r |}
              else None
  | None => None
  end.

(** The list and the counters on the page show the task array, and the
    array is in ascending id order. *)
Definition shown (date time : string -> string) (s : State) : Prop :=
  StronglySorted ascending (tasks s) /\
  taskList s = imap (render_row date time) (tasks s) /\
  overview s = count_tasks (tasks s).

(** The calendar shows the task array as well. *)
Definition calendar_shown (s : State) : Prop :=
  calendar s = omap marker (tasks s).

(** What an out-of-range task number is: an integer below 1 or above the
    number of tasks ([null] counts as 0). *)
Definition out_of_range (number : Js Z) (l : list Task) : Prop :=
  match number with
  | Val n => n < 1 \/ Z.of_nat (length l) < n
  | Null => True
  | Undefined => False
  end.

(** The page after the chat has warned about a task number. *)
Definition warned (s : State) : State :=
  set_chatMessages
    (chatMessages s ++ [mkChatMessage "ai" "⚠️ Invalid task number."]) s.

(** A description made of white space only. *)
Fixpoint all_white (s : string) : bool :=
  match s with
  | EmptyString => true
  | String c s' => is_white c && all_white s'
  end.

(** *** A small scenario

    One task on the server.  Toggling it returns the server's copy, which
    carries a reminder the page has not seen yet. *)
Definition milk : Task := mkTask 1 "Buy milk" false None.

Definition demo_respond (R : Type) (req : Request R) (srv : unit)
  : FetchResult R * unit :=
  (match req in Request R return FetchResult R with
   | GET_tasks => Resolved (Some [milk])
   | PATCH_completed tid c =>
       Resolved
         (mkData true
            (mkTaskFields (Some tid) (Some "Buy milk") (Some c)
               (Some (Some "2024-03-01T09:00"))))
   | _ => Rejected "Failed to fetch"
   end, srv).

Definition demo_page : State :=
  (run_events (fun r => r) (fun r => r) unit demo_respond
     [PageLoad; ClickToggle 1] initial tt).1.

Definition chat_action (fn : string) (args : Args) : option Action :=
  Some (mkAction (Val fn) (Some args) Undefined).

(** The page with the one task of the scenario on it, and the page on
    which that task has just been deleted. *)
Definition milk_page : State := set_tasks [milk] initial.
Definition milk_deleted : State := set_deletedTask (Some milk) initial.

(** The events whose handlers have no business with [deletedTask]: all
    but deleting, undoing and chatting. *)
Definition leaves_deletedTask (ev : Event) : bool :=
  match ev with
  | ClickDelete _ | ClickUndo | ClickSend _ => false
  | _ => true
  end.

(** A backend that accepts deletions and answers an undo with the task of
    the scenario. *)
Definition obliging_respond (R : Type) (req : Request R) (srv : unit)
  : FetchResult R * unit :=
  (match req in Request R return FetchResult R with
   | DELETE_task _ => Resolved (mkData true tt)
   | POST_undo_delete => Resolved (mkData true milk)
   | _ => Rejected "Failed to fetch"
   end, srv).



(** The one event whose handler renders the list without the calendar. *)
Definition is_toggle (ev : Event) : bool :=
  match ev with
  | ClickToggle _ => true
  | _ => false
  end.

(** The function names the chat knows. *)
Definition known_functions : list string :=
  ["addTask"; "viewTasks"; "completeTask"; "deleteTask"; "undoDelete";
   "resetAll"].

(** *** White space

    A blank string is a run of white-space characters.  [d] is [s]
    trimmed when [s] is [d] between two blank runs and [d] neither starts
    nor ends with a white-space character. *)
Definition blank_bytes (l : list Ascii.ascii) : Prop :=
  exists parts, Forall (λ w, w ∈ white_space) parts /\ l = concat parts.

Definition blank (s : string) : Prop :=
  blank_bytes (String.list_ascii_of_string s).

Definition trimmed_of (s d : string) : Prop :=
  exists pre suf,
    blank_bytes pre /\ blank_bytes suf /\
    String.list_ascii_of_string s
    = pre ++ String.list_ascii_of_string d ++ suf /\
    (forall w, w ∈ white_space -> ¬ w `prefix_of` String.list_ascii_of_string d) /\
    (forall w, w ∈ white_space -> ¬ w `suffix_of` String.list_ascii_of_string d).

(** A no-break space. *)
Definition nbsp : string := String.string_of_list_ascii (utf8 0xA0).

(** [t.reminder ? f(t.reminder) : ""], as it reads on the page. *)
Definition reminder_text (f : string -> string) (t : Task) : string :=
  match reminder t with
  | Some r => if decide (r = "") then "" else f r
  | None => ""
  end.

(** The page after the chat has caught an exception. *)
Definition errored (err : string) (s : State) : State :=
  set_chatMessages
    (chatMessages s ++ [mkChatMessage "ai" ("⚠️ " +:+ err)])
    (set_console (console s ++ [err]) s).

(** A number that is the display position of a task with an id other
    than 0. *)
Definition names_a_task (number : Js Z) (l : list Task) : Prop :=
  exists n t, number = Val (Z.of_nat n + 1) /\ l !! n = Some t /\ id t <> 0.

(** The page of the scenario once a chat action has brought the calendar
    up to date: one completed task with a reminder, its row, its marker. *)
Definition synced_page : State :=
  state_of
    (handleChatAction (fun r => r) (fun r => r) false
       (chat_action "viewTasks" no_args) demo_page).

(** The form filled in with a description between a no-break space and
    spaces, and a date; and with a description of white space only. *)
Definition form_page : State :=
  set_inputs (nbsp +:+ " Buy milk ") "2024-03-01" "" initial.
Definition blank_form_page : State :=
  set_inputs (nbsp +:+ " ") "2024-03-01" "09:00" initial.

(** * Properties *)

Section Properties.

Variable toLocaleDateString : string -> string.
Variable toLocaleTimeString : string -> string.

Abbreviation render_row' := (render_row toLocaleDateString toLocaleTimeString).
Abbreviation shown' := (shown toLocaleDateString toLocaleTimeString).

(** ** Sorting *)

Lemma sort_insert_Permutation {A} (cmp : A -> A -> Z) x l :
  sort_insert cmp x l ≡ₚ x :: l.
Proof.
  induction l as [|y l IH]; simpl; [done|].
  destruct (cmp x y <=? 0); [done|].
  rewrite IH. apply Permutation_swap.
Qed.

Lemma sort_Permutation {A} (cmp : A -> A -> Z) l : sort cmp l ≡ₚ l.
Proof.
  induction l as [|x l IH]; simpl; [done|].
  unfold sort in *. simpl. by rewrite sort_insert_Permutation, IH.
Qed.

Lemma sort_insert_ascending x l :
  StronglySorted ascending l -> StronglySorted ascending (sort_insert by_id x l).
Proof.
  induction 1 as [|y l Hl IH Hy]; simpl.
  - repeat constructor.
  - unfold by_id at 1. destruct (Z.leb_spec (id x - id y) 0) as [Hle|Hgt].
    + constructor; [by constructor|].
      constructor; [unfold ascending; lia|].
      eapply Forall_impl; [exact Hy|]. unfold ascending. intros z Hz. lia.
    + constructor; [exact IH|].
      rewrite sort_insert_Permutation. constructor; [|exact Hy].
      unfold ascending. lia.
Qed.

Lemma sort_ascending l : StronglySorted ascending (sort by_id l).
Proof.
  induction l as [|x l IH]; [constructor|].
  apply sort_insert_ascending, IH.
Qed.

(** Sorting an array that is already in order leaves it as it is. *)
Lemma sort_insert_head x l :
  Forall (ascending x) l -> sort_insert by_id x l = x :: l.
Proof.
  destruct 1 as [|y l Hy _]; simpl; [done|].
  unfold by_id, ascending in *.
  destruct (Z.leb_spec (id x - id y) 0); [done|lia].
Qed.

Lemma sort_sorted l : StronglySorted ascending l -> sort by_id l = l.
Proof.
  induction 1 as [|x l Hl IH Hx]; [done|].
  unfold sort in *. simpl. rewrite IH. by apply sort_insert_head.
Qed.

Lemma filter_ascending (P : Task -> Prop) `{!forall t, Decision (P t)} l :
  StronglySorted ascending l -> StronglySorted ascending (filter P l).
Proof.
  induction 1 as [|x l Hl IH Hx]; [constructor|].
  rewrite filter_cons. destruct (decide (P x)); [|exact IH].
  constructor; [exact IH|].
  rewrite Forall_forall in *. intros y [_ Hy]%list_elem_of_filter. auto.
Qed.

(** ** Rows *)

Lemma rows_ordinal (l : list Task) i r :
  imap render_row' l !! i = Some r -> ordinal r = S i.
Proof.
  rewrite list_lookup_imap. destruct (l !! i); simpl; [|done].
  intros [= <-]. simpl. lia.
Qed.

Lemma rows_ascending_imap_from (l : list Task) k :
  StronglySorted ascending l ->
  StronglySorted rows_ascending
    (imap (fun i => render_row' (k + i)) l).
Proof.
  intros Hl. revert k. induction Hl as [|x l Hl IH Hx]; intros k; simpl.
  - constructor.
  - constructor.
    + erewrite imap_ext; [apply (IH (S k))|].
      intros i y _. simpl. f_equal. lia.
    + apply Forall_forall. intros r Hr.
      apply elem_of_lookup_imap in Hr as (i & y & -> & Hy).
      unfold rows_ascending. simpl.
      rewrite Forall_forall in Hx. apply Hx.
      by eapply list_elem_of_lookup_2.
Qed.

Lemma rows_ascending_imap (l : list Task) :
  StronglySorted ascending l ->
  StronglySorted rows_ascending (imap render_row' l).
Proof. intros Hl. apply (rows_ascending_imap_from l 0 Hl). Qed.

(** ** Counters *)

Lemma filter_completed_split (l : list Task) :
  (length l =
   length (filter (λ t, completed t = true) l)
   + length (filter (λ t, completed t = false) l))%nat.
Proof.
  induction l as [|x l IH]; [done|].
  rewrite !filter_cons. destruct (completed x) eqn:Hx.
  - rewrite decide_True by done. rewrite decide_False by done. simpl. lia.
  - rewrite decide_False by done. rewrite decide_True by done. simpl. lia.
Qed.

Lemma updateOverview_counts s :
  overview (state_of (updateOverview s)) = count_tasks (tasks s).
Proof.
  simpl. unfold count_tasks. f_equal.
  - apply (f_equal length), list_filter_iff. intros t.
    by destruct (completed t).
  - apply (f_equal length), list_filter_iff. intros t.
    by destruct (completed t).
Qed.

End Properties.

(** ** Trimming *)

Section Strip.
Variable ws : list (list Ascii.ascii).

Lemma strip_Some l l' :
  strip ws l = Some l' -> exists w, w ∈ ws /\ l = w ++ l'.
Proof.
  unfold strip. destruct (list_find _ ws) as [[i w]|] eqn:Hfind; [|done].
  intros [= <-]. apply list_find_Some in Hfind as (Hi & [k ->] & _).
  exists w. split; [by eapply list_elem_of_lookup_2|].
  simpl. by rewrite drop_app_length.
Qed.

Lemma strip_None l w : strip ws l = None -> w ∈ ws -> ¬ w `prefix_of` l.
Proof.
  unfold strip. destruct (list_find _ ws) as [[i w']|] eqn:Hfind; [done|].
  intros _ Hw. apply list_find_None in Hfind.
  rewrite Forall_forall in Hfind. by apply Hfind.
Qed.

Lemma strip_all_split n l :
  exists parts,
    Forall (λ w, w ∈ ws) parts /\ l = concat parts ++ strip_all ws n l.
Proof.
  revert l. induction n as [|n IH]; intros l; simpl.
  - by exists [].
  - destruct (strip ws l) as [l'|] eqn:Hstrip; [|by exists []].
    apply strip_Some in Hstrip as (w & Hw & ->).
    destruct (IH l') as (parts & Hparts & Hl').
    exists (w :: parts). split; [by constructor|].
    simpl. rewrite <- app_assoc. by f_equal.
Qed.

Hypothesis ws_nonempty : forall w, w ∈ ws -> w <> [].

Lemma strip_all_done n l w :
  (length l <= n)%nat -> w ∈ ws -> ¬ w `prefix_of` strip_all ws n l.
Proof.
  revert l. induction n as [|n IH]; intros l Hn Hw; simpl.
  - destruct l; [|simpl in Hn; lia].
    intros [k Hk]. destruct w; [by apply (ws_nonempty [])|discriminate Hk].
  - destruct (strip ws l) as [l'|] eqn:Hstrip; [|by eapply strip_None].
    apply IH; [|done].
    apply strip_Some in Hstrip as (w' & Hw' & ->).
    rewrite length_app in Hn.
    pose proof (ws_nonempty w' Hw'). destruct w'; [done|]. simpl in Hn. lia.
Qed.

Hypothesis ws_prefix_free :
  forall w w', w ∈ ws -> w' ∈ ws -> w `prefix_of` w' -> w = w'.

Lemma strip_white w l : w ∈ ws -> strip ws (w ++ l) = Some l.
Proof.
  intros Hw. unfold strip.
  destruct (list_find (λ w0, w0 `prefix_of` w ++ l) ws) as [[i w']|] eqn:Hfind.
  - apply list_find_Some in Hfind as (Hi & Hp & _).
    assert (Hw' : w' ∈ ws) by by eapply list_elem_of_lookup_2.
    assert (w' = w) as ->.
    { destruct (prefix_weak_total w' w (w ++ l) Hp (prefix_app_r w w l (reflexivity w)))
        as [H|H]; [by apply ws_prefix_free|symmetry; by apply ws_prefix_free]. }
    simpl. by rewrite drop_app_length.
  - apply list_find_None in Hfind. rewrite Forall_forall in Hfind.
    destruct (Hfind w Hw). by apply prefix_app_r.
Qed.

Lemma strip_all_blank parts n :
  Forall (λ w, w ∈ ws) parts ->
  (length (concat parts) <= n)%nat ->
  strip_all ws n (concat parts) = [].
Proof.
  intros Hparts. revert n. induction Hparts as [|w parts Hw _ IH]; intros n Hn.
  - destruct n as [|n]; simpl; [done|].
    destruct (strip ws []) as [l'|] eqn:Hstrip; [|done].
    apply strip_Some in Hstrip as (w & Hw & Heq).
    destruct w; [by destruct (ws_nonempty [] Hw)|discriminate Heq].
  - simpl in *. rewrite length_app in Hn.
    pose proof (ws_nonempty w Hw). 
    destruct n as [|n]; [destruct w; [done|simpl in Hn; lia]|].
    simpl. rewrite (strip_white w _ Hw). apply IH.
    destruct w; [done|simpl in Hn; lia].
Qed.

End Strip.

Lemma white_space_nonempty w : w ∈ white_space -> w <> [].
Proof.
  assert (H : Forall (λ w, w <> []) white_space)
    by (apply (bool_decide_unpack _); vm_compute; exact I).
  rewrite Forall_forall in H. apply H.
Qed.

Lemma white_space_prefix_free w w' :
  w ∈ white_space -> w' ∈ white_space -> w `prefix_of` w' -> w = w'.
Proof.
  assert (H : Forall (λ w, Forall (λ w', w `prefix_of` w' -> w = w') white_space)
                white_space)
    by (apply (bool_decide_unpack _); vm_compute; exact I).
  rewrite Forall_forall in H. intros Hw Hw'.
  specialize (H w Hw). rewrite Forall_forall in H. by apply H.
Qed.

Lemma reversed_nonempty w : w ∈ reverse <$> white_space -> w <> [].
Proof.
  intros (w' & -> & Hw')%list_elem_of_fmap Hnil.
  apply (white_space_nonempty w' Hw').
  apply (f_equal reverse) in Hnil. by rewrite reverse_involutive in Hnil.
Qed.

Lemma blank_bytes_app l1 l2 :
  blank_bytes l1 -> blank_bytes l2 -> blank_bytes (l1 ++ l2).
Proof.
  intros (p1 & H1 & ->) (p2 & H2 & ->). exists (p1 ++ p2).
  split; [by apply Forall_app|]. by rewrite concat_app.
Qed.

Lemma blank_bytes_reversed parts :
  Forall (λ w, w ∈ reverse <$> white_space) parts ->
  blank_bytes (reverse (concat parts)).
Proof.
  induction 1 as [|w parts Hw _ IH]; simpl.
  - by exists [].
  - rewrite reverse_app. apply blank_bytes_app; [exact IH|].
    apply list_elem_of_fmap in Hw as (w' & -> & Hw').
    rewrite reverse_involutive. exists [w']. split; [by constructor|].
    simpl. by rewrite app_nil_r.
Qed.

Lemma trim_trimmed_of s : trimmed_of s (trim s).
Proof.
  unfold trimmed_of, trim. rewrite String.list_ascii_of_string_of_list_ascii.
  set (l := String.list_ascii_of_string s).
  destruct (strip_all_split white_space (length l) l) as (p1 & Hp1 & Hl).
  fold (trimStart l) in Hl. set (m := trimStart l) in *.
  destruct (strip_all_split (reverse <$> white_space) (length m) (reverse m))
    as (p2 & Hp2 & Hm).
  unfold trimEnd.
  set (d := strip_all (reverse <$> white_space) (length m) (reverse m)) in *.
  assert (Hm' : m = reverse d ++ reverse (concat p2)).
  { rewrite <- reverse_app, <- Hm. by rewrite reverse_involutive. }
  exists (concat p1), (reverse (concat p2)).
  split; [by exists p1|]. split; [by apply blank_bytes_reversed|].
  split; [by rewrite <- Hm'|]. split.
  - intros w Hw Hp.
    apply (strip_all_done white_space white_space_nonempty (length l) l w);
      [done|done|].
    fold (trimStart l). fold m. rewrite Hm'. by apply prefix_app_r.
  - intros w Hw Hp.
    apply (strip_all_done (reverse <$> white_space) reversed_nonempty
             (length m) (reverse m) (reverse w)).
    + by rewrite length_reverse.
    + apply list_elem_of_fmap. by exists w.
    + fold d. apply suffix_prefix_reverse in Hp.
      by rewrite reverse_involutive in Hp.
Qed.

Lemma blank_trim s : blank s <-> trim s = "".
Proof.
  split.
  - intros (parts & Hparts & Hs). unfold trim, trimStart. rewrite Hs.
    by rewrite (strip_all_blank white_space white_space_nonempty
                  white_space_prefix_free parts _ Hparts).
  - intros Htrim. destruct (trim_trimmed_of s) as (pre & suf & Hpre & Hsuf & Hs & _).
    rewrite Htrim in Hs. unfold blank. rewrite Hs. by apply blank_bytes_app.
Qed.

(** ** What every handler preserves *)

Section Invariant.

Variable toLocaleDateString : string -> string.
Variable toLocaleTimeString : string -> string.

Abbreviation shown2 := (shown toLocaleDateString toLocaleTimeString).

Lemma counts_eq (l : list Task) :
  {| totalTasks := length l;
     completedTasks := length (filter (λ t, Is_true (completed t)) l);
     pendingTasks := length (filter (λ t, Is_true (negb (completed t))) l) |}
  = count_tasks l.
Proof.
  unfold count_tasks. f_equal.
  - apply (f_equal length), list_filter_iff. intros t.
    by destruct (completed t).
  - apply (f_equal length), list_filter_iff. intros t.
    by destruct (completed t).
Qed.

(** A state whose list and counters were just rendered is [shown]. *)
Lemma shown_rendered l d c rows o dt cm t co i1 i2 i3 i4 :
  rows = imap (render_row toLocaleDateString toLocaleTimeString) (sort by_id l) ->
  o = count_tasks (sort by_id l) ->
  shown2 (mkState (sort by_id l) d c rows o dt cm t co i1 i2 i3 i4).
Proof.
  intros -> ->. split; [apply sort_ascending|done].
Qed.

(** Nor does it matter what else is on the page. *)
Lemma shown_frame s d c dt cm t co i1 i2 i3 i4 :
  shown2 s ->
  shown2 (mkState (tasks s) d c (taskList s) (overview s) dt cm t co i1 i2 i3 i4).
Proof. by intros (? & ? & ?). Qed.

Ltac finish_shown :=
  first
    [ assumption
    | apply shown_frame; assumption
    | apply shown_rendered; [reflexivity | apply counts_eq] ].

Ltac crunch :=
  repeat (cbn;
    match goal with
    | |- forall _ : FetchResult _, _ => intros [?|?]
    | |- forall _, _ => intro
    | |- ends_with _ (match ?x with _ => _ end _) => destruct x eqn:?
    | |- ends_with _ (if ?x then _ else _) => destruct x eqn:?
    | |- ends_with _ (catch_async (match ?x with _ => _ end _) _) => destruct x eqn:?
    | |- ends_with _ (catch_async (if ?x then _ else _) _) => destruct x eqn:?
    | |- ends_with _ (catch_async (bind_async (match ?x with _ => _ end _) _) _) => destruct x eqn:?
    | |- ends_with _ (catch_async (bind_async (bind_async (match ?x with _ => _ end _) _) _) _) => destruct x eqn:?
    | |- ends_with _ (catch_async (bind_async (if ?x then _ else _) _) _) => destruct x eqn:?
    end).

Lemma toggleComplete_shown tid s :
  shown2 s ->
  ends_with shown2 (toggleComplete toLocaleDateString toLocaleTimeString tid s).
Proof. intros Hs. unfold toggleComplete. crunch; finish_shown. Qed.

Lemma loadTasks_shown s :
  shown2 s ->
  ends_with shown2 (loadTasks toLocaleDateString toLocaleTimeString s).
Proof. intros Hs. unfold loadTasks. crunch; finish_shown. Qed.

Lemma addTask_shown d r s :
  shown2 s ->
  ends_with shown2 (addTask toLocaleDateString toLocaleTimeString d r s).
Proof. intros Hs. unfold addTask. crunch; finish_shown. Qed.

Lemma addTaskFromUI_shown s :
  shown2 s ->
  ends_with shown2 (addTaskFromUI toLocaleDateString toLocaleTimeString s).
Proof.
  intros Hs. unfold addTaskFromUI, detached, addTask. crunch; finish_shown.
Qed.

Lemma editTask_shown tid newDesc newReminder s :
  shown2 s ->
  ends_with shown2
    (editTask toLocaleDateString toLocaleTimeString tid newDesc newReminder s).
Proof. intros Hs. unfold editTask. crunch; finish_shown. Qed.

Lemma deleteTask_shown tid s :
  shown2 s ->
  ends_with shown2 (deleteTask toLocaleDateString toLocaleTimeString tid s).
Proof. intros Hs. unfold deleteTask. crunch; finish_shown. Qed.

Lemma undoDelete_shown s :
  shown2 s ->
  ends_with shown2 (undoDelete toLocaleDateString toLocaleTimeString s).
Proof. intros Hs. unfold undoDelete. crunch; finish_shown. Qed.

Lemma resetTasks_shown confirmed s :
  shown2 s ->
  ends_with shown2
    (resetTasks toLocaleDateString toLocaleTimeString confirmed s).
Proof. intros Hs. unfold resetTasks. crunch; finish_shown. Qed.

Lemma ends_with_bind {A B} (P : State -> Prop) (m : M A) (f : A -> M B) s :
  ends_with P (m s) ->
  (forall a s', P s' -> ends_with P (f a s')) ->
  ends_with P (bind m f s).
Proof.
  intros Hm Hf. unfold bind.
  induction (m s) as [s1 [a|err]|R s1 req k IH]; simpl in *; auto.
Qed.

Lemma ends_with_try_catch {A} (P : State -> Prop) (m : M A) h s :
  ends_with P (m s) ->
  (forall err s', P s' -> ends_with P (h err s')) ->
  ends_with P (try_catch m h s).
Proof.
  intros Hm Hh. unfold try_catch.
  induction (m s) as [s1 [a|err]|R s1 req k IH]; simpl in *; auto.
Qed.

Lemma ret_shown {A} (a : A) s : shown2 s -> ends_with shown2 (ret a s).
Proof. done. Qed.

Lemma appendMessage_shown text who s :
  shown2 s -> ends_with shown2 (appendMessage text who s).
Proof. intros Hs. cbn. finish_shown. Qed.

Lemma console_error_shown err s :
  shown2 s -> ends_with shown2 (console_error err s).
Proof. intros Hs. cbn. finish_shown. Qed.

Lemma getTaskIdByNumber_shown number s :
  shown2 s -> ends_with shown2 (getTaskIdByNumber number s).
Proof. intros Hs. unfold getTaskIdByNumber. crunch; finish_shown. Qed.

Lemma renderTasks_shown s :
  shown2 s ->
  ends_with shown2 (renderTasks toLocaleDateString toLocaleTimeString s).
Proof.
  intros (Hsorted & Hrows & Hcount). cbn.
  rewrite (sort_sorted _ Hsorted). by split.
Qed.

Lemma renderCalendar_shown s :
  shown2 s -> ends_with shown2 (renderCalendar s).
Proof. intros Hs. cbn. finish_shown. Qed.

Lemma updateOverview_shown s :
  shown2 s -> ends_with shown2 (updateOverview s).
Proof.
  intros (Hsorted & Hrows & Hcount). cbn.
  split; [done|]. split; [done|]. apply counts_eq.
Qed.

Lemma view_shown s :
  shown2 s ->
  ends_with shown2
    (modify (fun s0 =>
       set_chatMessages
         (chatMessages s0
          ++ imap (view_line toLocaleDateString toLocaleTimeString) (tasks s0))
         s0) s).
Proof. intros Hs. cbn. finish_shown. Qed.

Lemma fetch_shown {R} (req : Request R) s :
  shown2 s -> ends_with shown2 (fetch req s).
Proof. intros Hs [err|data]; exact Hs. Qed.

Lemma gets_shown {A} (f : State -> A) s :
  shown2 s -> ends_with shown2 (gets f s).
Proof. done. Qed.

Lemma modify_chatInput_shown v s :
  shown2 s -> ends_with shown2 (modify (set_chatInput v) s).
Proof. intros Hs. cbn. finish_shown. Qed.

Create HintDb shown.

#[local] Hint Resolve toggleComplete_shown loadTasks_shown addTask_shown
  editTask_shown deleteTask_shown undoDelete_shown resetTasks_shown
  ret_shown appendMessage_shown console_error_shown getTaskIdByNumber_shown
  renderTasks_shown renderCalendar_shown updateOverview_shown view_shown gets_shown fetch_shown modify_chatInput_shown : shown.

Ltac compose_shown :=
  repeat match goal with
    | |- ends_with _ (bind _ _ _) => apply ends_with_bind; [|intros ? ? ?]
    | |- ends_with _ (try_catch _ _ _) =>
        apply ends_with_try_catch; [|intros ? ? ?]
    | |- ends_with _ ((if ?b then _ else _) _) => destruct b
    | |- ends_with _ ((match ?x with _ => _ end) _) => destruct x
    end;
  auto with shown.

Lemma handleChatAction_shown confirmed action s :
  shown2 s ->
  ends_with shown2
    (handleChatAction toLocaleDateString toLocaleTimeString confirmed action s).
Proof. intros Hs. unfold handleChatAction. compose_shown. Qed.

#[local] Hint Resolve handleChatAction_shown : shown.

Lemma sendMessage_shown confirmed s :
  shown2 s ->
  ends_with shown2
    (sendMessage toLocaleDateString toLocaleTimeString confirmed s).
Proof. intros Hs. unfold sendMessage. compose_shown. Qed.

Lemma handler_shown ev s :
  shown2 s ->
  ends_with shown2 (handler toLocaleDateString toLocaleTimeString ev s).
Proof.
  intros Hs.
  destruct ev; simpl handler;
    auto using addTaskFromUI_shown, sendMessage_shown with shown;
    cbn; finish_shown.
Qed.

(** *** From one handler to any sequence of events *)

Variable Server : Type.
Variable respond : forall R, Request R -> Server -> FetchResult R * Server.

Lemma run_ends_with {A} (P : State -> Prop) (p : Async A) srv :
  ends_with P p -> P (run Server respond p srv).1.
Proof.
  revert srv. induction p as [s c|R s req k IH]; intros srv Hp; simpl in *.
  - exact Hp.
  - destruct (respond R req srv) as [r srv']. apply IH, Hp.
Qed.

Lemma run_events_shown evs s srv :
  shown2 s ->
  shown2
    (run_events toLocaleDateString toLocaleTimeString Server respond evs s srv).1.
Proof.
  revert s srv. induction evs as [|ev evs IH]; intros s srv Hs; [done|].
  unfold run_events in *. simpl.
  destruct (run Server respond
              (handler toLocaleDateString toLocaleTimeString ev s) srv)
    as [s1 srv1] eqn:Hrun.
  apply IH.
  change s1 with (s1, srv1).1. rewrite <- Hrun.
  apply run_ends_with, handler_shown, Hs.
Qed.

Lemma initial_shown : shown2 initial.
Proof. split; [constructor|done]. Qed.

End Invariant.

(** ** Deleting, undoing, resetting *)

Section Deletion.

Variable toLocaleDateString : string -> string.
Variable toLocaleTimeString : string -> string.

Abbreviation deleteTask' := (deleteTask toLocaleDateString toLocaleTimeString).
Abbreviation undoDelete' := (undoDelete toLocaleDateString toLocaleTimeString).
Abbreviation resetTasks' := (resetTasks toLocaleDateString toLocaleTimeString).

Lemma find_task_present tid (l : list Task) :
  (exists t, t ∈ l /\ id t = tid) ->
  exists idx task, find_task tid l = Some (idx, task).
Proof.
  intros (t & Ht & Hid).
  destruct (list_find_elem_of (λ t, id t = tid) l t Ht Hid) as [[idx task] H].
  by exists idx, task.
Qed.

(** C6: deleting a task that is in the local array stores a copy of it in
    [deletedTask] before the request goes out: the copy is there when the
    client waits for the answer and stays there when the request fails or
    is refused; when the server accepts, the task is gone from the array. *)
Theorem deleteTask_snapshot tid s :
  (exists t, t ∈ tasks s /\ id t = tid) ->
  exists idx task k,
    tasks s !! idx = Some task /\ id task = tid /\
    deleteTask' tid s
    = Await (set_deletedTask (Some task) s) (DELETE_task tid) k /\
    (forall r,
       let s' := state_of (k r (set_deletedTask (Some task) s)) in
       no_request (k r (set_deletedTask (Some task) s)) = true /\
       deletedTask s' = Some task /\
       match r with
       | Resolved data =>
           if ok data
           then tasks s' = sort by_id (filter (λ t, id t ≠ tid) (tasks s)) /\
                (forall t, t ∈ tasks s' -> id t ≠ tid)
           else tasks s' = tasks s
       | Rejected _ => tasks s' = tasks s
       end).
Proof.
  intros Hin.
  destruct (find_task_present tid (tasks s) Hin) as (idx & task & Hfind).
  pose proof Hfind as (Hidx & Hid & _)%list_find_Some.
  exists idx, task. unfold deleteTask, bind, gets. cbn. rewrite Hfind. cbn.
  eexists. split; [exact Hidx|]. split; [exact Hid|]. split; [reflexivity|].
  intros [err|[[] u]]; cbn; repeat split.
  intros t Ht. rewrite sort_Permutation in Ht.
  by apply list_elem_of_filter in Ht as [Ht _].
Qed.

(** C7: with nothing deleted, undo tells the user so and does nothing
    else: no request, same tasks. *)
Theorem undoDelete_nothing s :
  deletedTask s = None ->
  undoDelete' s
  = Finish (set_toast (toast s ++ ["Nothing to undo"]) s) (Normal tt).
Proof. intros H. unfold undoDelete, bind, gets. cbn. by rewrite H. Qed.

(** C9: a reset the server accepts empties the array and leaves
    [deletedTask] alone, so an undo after it still asks the server to
    restore the task deleted before the reset. *)
Theorem resetTasks_keeps_deletedTask s d :
  deletedTask s = Some d ->
  exists k,
    resetTasks' true s = Await s DELETE_reset k /\
    let after := k (Resolved (mkData true tt)) s in
    no_request after = true /\
    tasks (state_of after) = [] /\
    deletedTask (state_of after) = Some d /\
    exists k', undoDelete' (state_of after)
               = Await (state_of after) POST_undo_delete k'.
Proof.
  intros Hd. eexists. split; [reflexivity|]. cbn.
  repeat split; [exact Hd|].
  unfold undoDelete, bind, gets. cbn. rewrite Hd. cbn. by eexists.
Qed.

End Deletion.

(** ** Chat actions *)

Section Chat.

Variable toLocaleDateString : string -> string.
Variable toLocaleTimeString : string -> string.

Abbreviation handleChatAction' :=
  (handleChatAction toLocaleDateString toLocaleTimeString).

Lemma getTaskIdByNumber_in_range s n t :
  tasks s !! n = Some t ->
  getTaskIdByNumber (Val (Z.of_nat n + 1)) s = Finish s (Normal (Some (id t))).
Proof.
  intros Ht. pose proof (lookup_lt_Some _ _ _ Ht) as Hlt.
  unfold getTaskIdByNumber, bind, gets. cbn.
  replace (Z.of_nat n + 1 - 1) with (Z.of_nat n) by lia.
  destruct (Z.ltb_spec (Z.of_nat n) 0); [lia|].
  destruct (Z.leb_spec (Z.of_nat (length (tasks s))) (Z.of_nat n)); [lia|].
  cbn. by rewrite Nat2Z.id, Ht.
Qed.

Lemma getTaskIdByNumber_out_of_range s number :
  out_of_range number (tasks s) ->
  getTaskIdByNumber number s = Finish s (Normal None).
Proof.
  intros Hn. unfold getTaskIdByNumber, bind, gets. cbn.
  destruct number as [| |n]; [done|done|]. simpl in Hn.
  destruct (Z.ltb_spec (n - 1) 0); [done|].
  destruct (Z.leb_spec (Z.of_nat (length (tasks s))) (n - 1)); [done|lia].
Qed.

(** A [completeTask] action whose number (task_number, or task_id when
    task_number is missing, null or 0) is out of range appends the warning
    to the transcript and does nothing else. *)
Lemma completeTask_out_of_range confirmed args s :
  out_of_range (js_or (task_number args) (task_id args)) (tasks s) ->
  handleChatAction' confirmed (chat_action "completeTask" args) s
  = Finish (warned s) (Normal tt).
Proof.
  intros Hn. unfold handleChatAction. cbn -[getTaskIdByNumber].
  unfold bind. by rewrite (getTaskIdByNumber_out_of_range _ _ Hn).
Qed.

(** So does one whose number is the position of a task with id 0. *)
Lemma completeTask_id_zero confirmed args s n t :
  js_or (task_number args) (task_id args) = Val (Z.of_nat n + 1) ->
  tasks s !! n = Some t ->
  id t = 0 ->
  handleChatAction' confirmed (chat_action "completeTask" args) s
  = Finish (warned s) (Normal tt).
Proof.
  intros Hor Ht Hid. unfold handleChatAction. cbn -[getTaskIdByNumber].
  unfold bind. by rewrite Hor, (getTaskIdByNumber_in_range _ _ _ Ht), Hid.
Qed.

(** With no number at all the exception handler takes over. *)
Lemma completeTask_no_number confirmed args s :
  js_or (task_number args) (task_id args) = Undefined ->
  handleChatAction' confirmed (chat_action "completeTask" args) s
  = Finish (errored TypeError_id s) (Normal tt).
Proof.
  intros Hor. unfold handleChatAction. cbn -[getTaskIdByNumber].
  unfold bind. by rewrite Hor.
Qed.

(** A number is out of range, or the position of some task. *)
Lemma number_cases (n : Z) (l : list Task) :
  out_of_range (Val n) l \/
  exists k t, n = Z.of_nat k + 1 /\ l !! k = Some t.
Proof.
  destruct (decide (n < 1 \/ Z.of_nat (length l) < n)) as [H|H]; [by left|].
  right. exists (Z.to_nat (n - 1)).
  destruct (lookup_lt_is_Some_2 l (Z.to_nat (n - 1))) as [t Ht]; [lia|].
  exists t. split; [lia|done].
Qed.


(** C10: a task whose id is 0 cannot be reached from the chat: its display
    number is in range, yet [completeTask] and [deleteTask] answer with the
    invalid-number warning and change nothing. *)
Theorem id_zero_is_invalid confirmed fn args s n t :
  fn = "completeTask" \/ fn = "deleteTask" ->
  task_number args = Val (Z.of_nat n + 1) ->
  tasks s !! n = Some t ->
  id t = 0 ->
  handleChatAction' confirmed (chat_action fn args) s
  = Finish (warned s) (Normal tt).
Proof.
  intros Hfn Hnum Ht Hid.
  assert (Hor : js_or (task_number args) (task_id args) = Val (Z.of_nat n + 1)).
  { rewrite Hnum. unfold js_or, truthy, truthy_Js, truthy, truthy_Z.
    destruct (Z.eqb_spec (Z.of_nat n + 1) 0); [lia|done]. }
  destruct Hfn as [-> | ->]; unfold handleChatAction;
    cbn -[getTaskIdByNumber]; unfold bind;
    rewrite Hor, (getTaskIdByNumber_in_range _ _ _ Ht), Hid; reflexivity.
Qed.

(** X23: where the 1-based number resolves to the first task with a
    non-zero id, the request for that task goes out, asking for the
    opposite of its flag. *)
Lemma completeTask_in_range confirmed args s n t :
  task_number args = Val (Z.of_nat n + 1) ->
  tasks s !! n = Some t ->
  id t <> 0 ->
  (forall j u, tasks s !! j = Some u -> (j < n)%nat -> id u <> id t) ->
  exists k,
    handleChatAction' confirmed (chat_action "completeTask" args) s
    = Await s (PATCH_completed (id t) (negb (completed t))) k.
Proof.
  intros Hnum Ht Hid Hfirst.
  assert (Hor : js_or (task_number args) (task_id args) = Val (Z.of_nat n + 1)).
  { rewrite Hnum. unfold js_or, truthy, truthy_Js, truthy, truthy_Z.
    destruct (Z.eqb_spec (Z.of_nat n + 1) 0); [lia|done]. }
  assert (Hfind : find_task (id t) (tasks s) = Some (n, t)).
  { apply list_find_Some. split; [done|]. split; [done|]. exact Hfirst. }
  unfold handleChatAction. cbn -[getTaskIdByNumber toggleComplete].
  unfold bind. rewrite Hor, (getTaskIdByNumber_in_range _ _ _ Ht).
  cbn -[toggleComplete]. unfold truthy, truthy_Z.
  destruct (Z.eqb_spec (id t) 0); [done|]. cbn -[toggleComplete].
  unfold toggleComplete, bind, gets. cbn. rewrite Hfind. cbn. by eexists.
Qed.

(** ** Creating a task *)

(** X24: from the form, a description that is empty or white space only is
    turned down on the page: a notice, no request, same tasks, and the
    form keeps what was typed. *)
Lemma addTaskFromUI_blank s :
  blank (taskInput s) ->
  addTaskFromUI toLocaleDateString toLocaleTimeString s
  = Finish (set_toast (toast s ++ ["Enter task description"]) s) (Normal tt).
Proof.
  intros H%blank_trim. unfold addTaskFromUI, bind, gets. cbn.
  by rewrite H.
Qed.

(** [addTask] itself turns down a description that is missing or empty. *)
Lemma addTask_falsy description reminder s :
  truthy description = false ->
  addTask toLocaleDateString toLocaleTimeString description reminder s
  = Finish s (Normal tt).
Proof.
  intros H. unfold addTask. destruct description as [| |d]; [done|done|].
  cbn in H. by rewrite H.
Qed.

(** C2 at the failing input: a description of three spaces that comes in
    a chat action is sent to the server as it is. *)
Theorem chat_addTask_blank_is_posted confirmed s :
  all_white "   " = true /\
  exists k,
    handleChatAction' confirmed
      (chat_action "addTask" (mkArgs (Val "   ") Undefined Undefined Undefined)) s
    = Await s (POST_tasks "   " None) k.
Proof. split; [reflexivity|]. cbn. eexists. reflexivity. Qed.

End Chat.


(** C1 at the failing input: on a page whose calendar is behind the task
    array, an abandoned [completeTask] leaves through the warning and the
    calendar stays behind: the marker the task calls for is not there. *)
Theorem abandoned_action_skips_render :
  let action :=
    chat_action "completeTask" (mkArgs Undefined Undefined (Val 7) Undefined) in
  let out := handleChatAction (fun r => r) (fun r => r) false action demo_page in
  tasks demo_page = [mkTask 1 "Buy milk" true (Some "2024-03-01T09:00")] /\
  out = Finish (warned demo_page) (Normal tt) /\
  calendar (state_of out) = [] /\
  omap marker (tasks (state_of out))
  = [mkCalendarEvent "1" "2024-03-01T09:00"].
Proof. cbn zeta. repeat split; vm_compute; reflexivity. Qed.

(** An action that is carried out does bring the calendar up to date. *)
Lemma viewTasks_renders :
  let action := chat_action "viewTasks" no_args in
  let out := handleChatAction (fun r => r) (fun r => r) false action demo_page in
  no_request out = true /\
  calendar (state_of out) = [mkCalendarEvent "1" "2024-03-01T09:00"].
Proof. cbn zeta. split; vm_compute; reflexivity. Qed.

(** ** What the page shows after any sequence of events *)

Section Reachable.

Variable toLocaleDateString : string -> string.
Variable toLocaleTimeString : string -> string.
Variable Server : Type.
Variable respond : forall R, Request R -> Server -> FetchResult R * Server.

Abbreviation page_after evs srv :=
  (run_events toLocaleDateString toLocaleTimeString Server respond
     evs initial srv).1.

(** X22: one render of the list, from any state: the array is sorted in place
    (no task is lost or added) and the rows number it from 1. *)
Lemma renderTasks_sorted s :
  let s' := state_of (renderTasks toLocaleDateString toLocaleTimeString s) in
  tasks s' ≡ₚ tasks s /\
  StronglySorted ascending (tasks s') /\
  taskList s' = imap (render_row toLocaleDateString toLocaleTimeString) (tasks s').
Proof.
  cbn. split; [apply sort_Permutation|]. split; [apply sort_ascending|done].
Qed.

(** C3: whatever the user does and whatever the backend answers, the rows
    of the list are in ascending id order, the ordinal of a row is its
    1-based position in that order, and the rows are those of the task
    array. *)
Theorem rendered_list_sorted evs srv :
  let s := page_after evs srv in
  StronglySorted rows_ascending (taskList s) /\
  (forall i r, taskList s !! i = Some r -> ordinal r = S i) /\
  row_id <$> taskList s = id <$> tasks s.
Proof.
  destruct (run_events_shown toLocaleDateString toLocaleTimeString
              Server respond evs initial srv
              (initial_shown toLocaleDateString toLocaleTimeString))
    as (Hsorted & Hrows & _).
  cbn zeta. rewrite Hrows. split; [|split].
  - by apply rows_ascending_imap.
  - apply rows_ordinal.
  - apply list_eq. intros i.
    rewrite !list_lookup_fmap, list_lookup_imap.
    by destruct (tasks _ !! i).
Qed.

(** C4: the counters are computed from the task array alone, so after
    [updateOverview], and on the page after any sequence of events, they
    are the length of the array, the number of completed tasks and the
    number of tasks not completed, and the first is the sum of the other
    two. *)
Theorem overview_counts :
  (forall s, overview (state_of (updateOverview s)) = count_tasks (tasks s)) /\
  (forall evs srv,
     overview (page_after evs srv) = count_tasks (tasks (page_after evs srv))) /\
  (forall l,
     let o := count_tasks l in
     totalTasks o = length l /\
     completedTasks o = length (filter (λ t, completed t = true) l) /\
     pendingTasks o = length (filter (λ t, completed t = false) l) /\
     totalTasks o = (completedTasks o + pendingTasks o)%nat).
Proof.
  split; [apply updateOverview_counts|]. split.
  - intros evs srv.
    apply (run_events_shown toLocaleDateString toLocaleTimeString
             Server respond evs initial srv
             (initial_shown toLocaleDateString toLocaleTimeString)).
  - intros l. cbn. repeat split. apply filter_completed_split.
Qed.

(** *** Calendar *)

Lemma foldl_addEvent cal l : foldl addEvent cal l = cal ++ omap marker l.
Proof.
  revert cal. induction l as [|t l IH]; intros cal; simpl.
  - by rewrite app_nil_r.
  - rewrite IH. unfold addEvent, marker.
    destruct (reminder t) as [r|]; [|done].
    destruct (truthy r); [|done]. by rewrite <- app_assoc.
Qed.

Lemma marker_Some t ev :
  marker t = Some ev <->
  exists r, reminder t = Some r /\ r <> "" /\
            ev = {| ev_id := to_text (id t); start := r |}.
Proof.
  unfold marker. destruct (reminder t) as [[|c r]|]; cbn.
  - split; [done|]. by intros (r & [= <-] & ? & _).
  - split.
    + intros [= <-]. by eexists.
    + by intros (r' & [= <-] & _ & ->).
  - split; [done|]. by intros (r & ? & _).
Qed.

Lemma on_day_true dateStr t :
  on_day dateStr t = true <->
  exists r, reminder t = Some r /\ r <> "" /\ String.prefix dateStr r = true.
Proof.
  unfold on_day. destruct (reminder t) as [[|c r]|]; cbn.
  - split; [done|]. by intros (r & [= <-] & ? & _).
  - split.
    + intros H. by eexists.
    + by intros (r' & [= <-] & _ & H).
  - split; [done|]. by intros (r & ? & _).
Qed.

(** C8: rendering the calendar replaces whatever markers it had by one
    marker per task with a reminder, in array order, each starting at the
    task's reminder; clicking a date lists the tasks whose reminder starts
    with the text of that date, in ascending id order, one line per task
    with its number in that list, its description and the time of its
    reminder. *)
Theorem calendar_markers :
  (forall s, calendar (state_of (renderCalendar s)) = omap marker (tasks s)) /\
  (forall t ev,
     marker t = Some ev <->
     exists r, reminder t = Some r /\ r <> "" /\
               ev = {| ev_id := to_text (id t); start := r |}) /\
  (forall evs srv dateStr,
     let s := page_after evs srv in
     let day := filter (λ t, on_day dateStr t = true) (tasks s) in
     let lines :=
       dayTasks (state_of (showDayTasks toLocaleTimeString dateStr s)) in
     length lines = length day /\
     (forall i t,
        day !! i = Some t ->
        exists r,
          reminder t = Some r /\
          lines !! i
          = Some {| day_ordinal := S i;
                    day_description := description t;
                    day_time := toLocaleTimeString r |}) /\
     StronglySorted ascending day /\
     (forall t, t ∈ day <->
        t ∈ tasks s /\
        exists r, reminder t = Some r /\ r <> "" /\
                  String.prefix dateStr r = true)).
Proof.
  split; [|split].
  - intros s. cbn. by rewrite foldl_addEvent.
  - apply marker_Some.
  - intros evs srv dateStr.
    destruct (run_events_shown toLocaleDateString toLocaleTimeString
                Server respond evs initial srv
                (initial_shown toLocaleDateString toLocaleTimeString))
      as (Hsorted & _ & _).
    cbn zeta.
    assert (Hlines :
      dayTasks (state_of (showDayTasks toLocaleTimeString dateStr
                            (page_after evs srv)))
      = imap (day_row toLocaleTimeString)
          (filter (λ t, on_day dateStr t = true) (tasks (page_after evs srv)))).
    { cbn. f_equal. apply list_filter_iff. intros t.
      by destruct (on_day dateStr t). }
    rewrite Hlines. split; [|split; [|split]].
    + apply length_imap.
    + intros i t Hi.
      assert (Hday : t ∈ filter (λ t, on_day dateStr t = true)
                         (tasks (page_after evs srv)))
        by by eapply list_elem_of_lookup_2.
      apply list_elem_of_filter in Hday as [Hon _].
      apply on_day_true in Hon as (r & Hr & _).
      exists r. split; [exact Hr|].
      rewrite list_lookup_imap, Hi. cbn. unfold day_row. rewrite Hr. cbn.
      do 2 f_equal. lia.
    + by apply filter_ascending.
    + intros t. rewrite list_elem_of_filter, on_day_true. tauto.
Qed.

End Reachable.

(** ** Actions that are carried out do re-render *)

Section Refresh.

Variable toLocaleDateString : string -> string.
Variable toLocaleTimeString : string -> string.

Abbreviation shown6 := (shown toLocaleDateString toLocaleTimeString).

(** The term a suspended evaluation is waiting on. *)
Ltac stuck_on p :=
  lazymatch p with
  | catch_async ?q _ => stuck_on q
  | bind_async ?q _ => stuck_on q
  | bind ?m _ ?s => stuck_on (m s)
  | try_catch ?m _ ?s => stuck_on (m s)
  | (match ?x with _ => _ end) _ => x
  | match ?x with _ => _ end => x
  end.

Ltac evaluate :=
  repeat (cbn;
    match goal with
    | |- forall _ : FetchResult _, _ => intros [?|?]
    | |- ends_with _ ?p => let x := stuck_on p in destruct x eqn:?
    end).

Lemma foldl_addEvent_nil l : foldl addEvent [] l = omap marker l.
Proof. apply foldl_addEvent. Qed.

Ltac rendered :=
  split;
  [ split; [apply sort_ascending | split; [reflexivity | apply counts_eq]]
  | apply foldl_addEvent_nil ].

(** X21: the four actions that carry no task number always end with the list,
    the counters and the calendar showing the task array, whatever the
    page showed before and whatever the server answers. *)
Lemma handleChatAction_renders confirmed fn args s :
  fn ∈ ["addTask"; "viewTasks"; "undoDelete"; "resetAll"] ->
  ends_with (fun s' => shown6 s' /\ calendar_shown s')
    (handleChatAction toLocaleDateString toLocaleTimeString confirmed
       (chat_action fn args) s).
Proof.
  intros Hfn. repeat (apply elem_of_cons in Hfn as [->|Hfn]);
    [| | | |by apply elem_of_nil in Hfn];
    unfold handleChatAction, addTask, undoDelete, resetTasks;
    evaluate; rendered.
Qed.

End Refresh.

(** ** The theorems at work on the scenario *)


Lemma deleteTask_snapshot_witness :
  (exists t, t ∈ tasks milk_page /\ id t = 1) /\
  exists idx task k,
    tasks milk_page !! idx = Some task /\ id task = 1 /\
    deleteTask (fun r => r) (fun r => r) 1 milk_page
    = Await (set_deletedTask (Some task) milk_page) (DELETE_task 1) k /\
    (forall r,
       let s' := state_of (k r (set_deletedTask (Some task) milk_page)) in
       no_request (k r (set_deletedTask (Some task) milk_page)) = true /\
       deletedTask s' = Some task /\
       match r with
       | Resolved data =>
           if ok data
           then tasks s'
                = sort by_id (filter (λ t, id t ≠ 1) (tasks milk_page)) /\
                (forall t, t ∈ tasks s' -> id t ≠ 1)
           else tasks s' = tasks milk_page
       | Rejected _ => tasks s' = tasks milk_page
       end).
Proof.
  assert (H : exists t, t ∈ tasks milk_page /\ id t = 1).
  { exists milk. split; [simpl; left | reflexivity]. }
  split; [exact H|].
  exact (deleteTask_snapshot (fun r => r) (fun r => r) 1 milk_page H).
Defined.

Lemma undoDelete_nothing_witness :
  deletedTask milk_page = None /\
  undoDelete (fun r => r) (fun r => r) milk_page
  = Finish (set_toast (toast milk_page ++ ["Nothing to undo"]) milk_page)
      (Normal tt).
Proof.
  split; [reflexivity|]. apply undoDelete_nothing. reflexivity.
Defined.

Lemma resetTasks_keeps_deletedTask_witness :
  deletedTask milk_deleted = Some milk /\
  exists k,
    resetTasks (fun r => r) (fun r => r) true milk_deleted
    = Await milk_deleted DELETE_reset k /\
    let after := k (Resolved (mkData true tt)) milk_deleted in
    no_request after = true /\
    tasks (state_of after) = [] /\
    deletedTask (state_of after) = Some milk /\
    exists k', undoDelete (fun r => r) (fun r => r) (state_of after)
               = Await (state_of after) POST_undo_delete k'.
Proof.
  split; [reflexivity|].
  apply (resetTasks_keeps_deletedTask (fun r => r) (fun r => r)
           milk_deleted milk).
  reflexivity.
Defined.

Lemma id_zero_is_invalid_witness :
  let s := set_tasks [mkTask 0 "Buy milk" false None] initial in
  let args := mkArgs Undefined Undefined (Val 1) Undefined in
  tasks s !! 0%nat = Some (mkTask 0 "Buy milk" false None) /\
  handleChatAction (fun r => r) (fun r => r) false
    (chat_action "deleteTask" args) s
  = Finish (warned s) (Normal tt).
Proof.
  cbn zeta. split; [reflexivity|].
  apply (id_zero_is_invalid (fun r => r) (fun r => r) false "deleteTask"
           (mkArgs Undefined Undefined (Val 1) Undefined)
           (set_tasks [mkTask 0 "Buy milk" false None] initial)
           0%nat (mkTask 0 "Buy milk" false None)).
  - right. reflexivity.
  - reflexivity.
  - reflexivity.
  - reflexivity.
Defined.

(** * Further properties of the script *)

(** Runs a handler symbolically: simplifies, and splits on whatever the
    evaluation waits for (an answer of the server, a test, a lookup). *)
Ltac waiting_on p :=
  lazymatch p with
  | catch_async ?q _ => waiting_on q
  | bind_async ?q _ => waiting_on q
  | bind ?m _ ?s => waiting_on (m s)
  | try_catch ?m _ ?s => waiting_on (m s)
  | (match ?x with _ => _ end) _ => x
  | match ?x with _ => _ end => x
  end.

Ltac symbolic_run :=
  repeat (cbn;
    match goal with
    | |- forall _ : FetchResult _, _ => intros [?|?]
    | |- ends_with _ ?p => let x := waiting_on p in destruct x eqn:?
    end).

Section Loading.

Variable toLocaleDateString : string -> string.
Variable toLocaleTimeString : string -> string.

Abbreviation shown8 := (shown toLocaleDateString toLocaleTimeString).

(** X1: loading asks for the whole collection.  When the answer comes, the
    array is replaced by the server's tasks (by nothing when the body has
    no [tasks]) and the list, the counters and the calendar show it; when
    the request fails, tasks and page stay as they were but for a notice
    and a console entry. *)
Theorem loadTasks_outcome s :
  exists k,
    loadTasks toLocaleDateString toLocaleTimeString s = Await s GET_tasks k /\
    forall r,
      no_request (k r s) = true /\
      match r with
      | Resolved data =>
          tasks (state_of (k r s)) = sort by_id (default [] data) /\
          shown8 (state_of (k r s)) /\
          calendar_shown (state_of (k r s)) /\
          toast (state_of (k r s)) = toast s
      | Rejected err =>
          state_of (k r s)
          = set_toast (toast s ++ ["Failed to load tasks"])
              (set_console (console s ++ [err]) s)
      end.
Proof.
  eexists. split; [reflexivity|].
  intros [err|data]; cbn; split; try reflexivity.
  split; [reflexivity|]. split; [|split; [|reflexivity]].
  - split; [apply sort_ascending|]. split; [reflexivity|apply counts_eq].
  - apply foldl_addEvent_nil.
Qed.

(** X2: a description that is not empty is posted as it is, with the
    reminder or [null].  An accepted task is appended and shown, with the
    notice "Task added"; a refusal changes nothing at all; a failure
    leaves the tasks alone and shows "Failed to add task". *)
Theorem addTask_outcome description reminder s :
  description <> "" ->
  exists k,
    addTask toLocaleDateString toLocaleTimeString (Val description) reminder s
    = Await s (POST_tasks description (or_null reminder)) k /\
    forall r,
      no_request (k r s) = true /\
      match r with
      | Resolved data =>
          if ok data
          then tasks (state_of (k r s)) = sort by_id (tasks s ++ [payload data]) /\
               shown8 (state_of (k r s)) /\
               calendar_shown (state_of (k r s)) /\
               toast (state_of (k r s)) = toast s ++ ["Task added"]
          else state_of (k r s) = s
      | Rejected err =>
          state_of (k r s)
          = set_toast (toast s ++ ["Failed to add task"])
              (set_console (console s ++ [err]) s)
      end.
Proof.
  intros Hd. unfold addTask.
  destruct description as [|c d]; [done|]. cbn.
  eexists. split; [reflexivity|].
  intros [err|[[] task]]; cbn; split; try reflexivity.
  split; [reflexivity|]. split; [|split; [|reflexivity]].
  - split; [apply sort_ascending|]. split; [reflexivity|apply counts_eq].
  - apply foldl_addEvent_nil.
Qed.

(** X3: from the form, a description that is not blank is posted trimmed
    (without the white space around it), with the reminder put together
    from the date and time fields (midnight when only the date is filled
    in, none without a date, even if a time is given); the three fields
    are empty while the answer is awaited. *)
Theorem addTaskFromUI_request s :
  ¬ blank (taskInput s) ->
  let desc := trim (taskInput s) in
  trimmed_of (taskInput s) desc /\
  desc <> "" /\
  exists k,
    addTaskFromUI toLocaleDateString toLocaleTimeString s
    = Await (set_inputs "" "" "" s)
        (POST_tasks desc
           (if decide (dateInput s = "") then None
            else if decide (timeInput s = "")
                 then Some (dateInput s +:+ "T00:00")
                 else Some (dateInput s +:+ "T" +:+ timeInput s)))
        k.
Proof.
  intros Hd. cbn zeta. split; [apply trim_trimmed_of|].
  assert (Hne : trim (taskInput s) <> "") by by rewrite <- blank_trim.
  split; [exact Hne|].
  unfold addTaskFromUI, bind, gets. cbn.
  destruct (trim (taskInput s)) as [|c d] eqn:Htrim; [done|]. cbn.
  destruct (dateInput s) as [|c1 d1]; cbn; [by eexists|].
  destruct (timeInput s) as [|c2 t2]; cbn; by eexists.
Qed.

End Loading.

Section Mutations.

Variable toLocaleDateString : string -> string.
Variable toLocaleTimeString : string -> string.

Abbreviation shown9 := (shown toLocaleDateString toLocaleTimeString).
Abbreviation toggleComplete9 :=
  (toggleComplete toLocaleDateString toLocaleTimeString).
Abbreviation editTask9 := (editTask toLocaleDateString toLocaleTimeString).
Abbreviation deleteTask9 := (deleteTask toLocaleDateString toLocaleTimeString).
Abbreviation undoDelete9 := (undoDelete toLocaleDateString toLocaleTimeString).
Abbreviation resetTasks9 := (resetTasks toLocaleDateString toLocaleTimeString).

Lemma find_task_absent tid (l : list Task) :
  (forall t, t ∈ l -> id t <> tid) -> find_task tid l = None.
Proof.
  intros H. apply list_find_None, Forall_forall. exact H.
Qed.

(** X4: toggling, editing or deleting an id that no local task has does
    nothing: no request, no change of the page, [deletedTask] included. *)
Theorem unknown_id_is_ignored tid newDesc newReminder s :
  (forall t, t ∈ tasks s -> id t <> tid) ->
  toggleComplete toLocaleDateString toLocaleTimeString tid s
  = Finish s (Normal tt) /\
  editTask toLocaleDateString toLocaleTimeString tid newDesc newReminder s
  = Finish s (Normal tt) /\
  deleteTask toLocaleDateString toLocaleTimeString tid s
  = Finish s (Normal tt).
Proof.
  intros H. apply find_task_absent in H.
  unfold toggleComplete, editTask, deleteTask, bind, gets. cbn.
  by rewrite H.
Qed.

(** X5: toggling the first task with a given id asks the server for the
    opposite of its flag.  On acceptance the fields of the server's copy
    are merged into that task (fields the copy lacks keep their value) and
    the list is rendered again; on refusal nothing changes; on failure
    only the console does.  In no case are the calendar or [deletedTask]
    touched. *)
Theorem toggleComplete_outcome tid s idx task :
  find_task tid (tasks s) = Some (idx, task) ->
  exists k,
    toggleComplete9 tid s
    = Await s (PATCH_completed tid (negb (completed task))) k /\
    forall r,
      let s' := state_of (k r s) in
      no_request (k r s) = true /\
      calendar s' = calendar s /\
      deletedTask s' = deletedTask s /\
      match r with
      | Resolved data =>
          if ok data
          then tasks s'
               = sort by_id (<[idx := assign task (payload data)]> (tasks s)) /\
               shown9 s'
          else s' = s
      | Rejected err => s' = set_console (console s ++ [err]) s
      end.
Proof.
  intros Hfind. pose proof Hfind as (Hidx & _)%list_find_Some.
  unfold toggleComplete, bind, gets. cbn. rewrite Hfind. cbn.
  eexists. split; [reflexivity|].
  intros [err|[[] fields]]; cbn; repeat split.
  - unfold alter, list_alter. f_equal.
    clear Hfind. revert idx Hidx.
    induction (tasks s) as [|x l IH]; intros [|i] Hi; simplify_eq/=; auto.
    f_equal. auto.
  - apply sort_ascending.
  - apply counts_eq.
Qed.

(** X6: an edit whose description prompt is cancelled sends nothing and
    changes nothing; otherwise the description goes out trimmed (without
    the white space around it), even when nothing is left of it, and a
    reminder prompt that is cancelled or left empty goes out as [null]. *)
Theorem editTask_request tid s idx task newDesc newReminder :
  find_task tid (tasks s) = Some (idx, task) ->
  editTask9 tid None newReminder s = Finish s (Normal tt) /\
  trimmed_of newDesc (trim newDesc) /\
  exists k,
    editTask9 tid (Some newDesc) newReminder s
    = Await s
        (PATCH_edit tid (trim newDesc)
           (match newReminder with
            | Some "" | None => None
            | Some r => Some r
            end))
        k.
Proof.
  intros Hfind. unfold editTask, bind, gets. cbn. rewrite Hfind. cbn.
  split; [reflexivity|]. split; [apply trim_trimmed_of|].
  destruct newReminder as [[|c r]|]; cbn; by eexists.
Qed.

(** X7: an undo the server accepts appends the task it returns, shows it
    and empties [deletedTask]; an undo that is refused or fails leaves
    [deletedTask] and the tasks as they are. *)
Theorem undoDelete_outcome s d :
  deletedTask s = Some d ->
  exists k,
    undoDelete9 s = Await s POST_undo_delete k /\
    forall r,
      let s' := state_of (k r s) in
      no_request (k r s) = true /\
      match r with
      | Resolved data =>
          if ok data
          then tasks s' = sort by_id (tasks s ++ [payload data]) /\
               deletedTask s' = None /\
               shown9 s' /\ calendar_shown s' /\
               toast s' = toast s ++ ["Restored last deleted task"]
          else s' = s
      | Rejected err => s' = set_console (console s ++ [err]) s
      end.
Proof.
  intros Hd. unfold undoDelete, bind, gets. cbn. rewrite Hd. cbn.
  eexists. split; [reflexivity|].
  intros [err|[[] task]]; cbn; split; try reflexivity.
  split; [reflexivity|]. split; [reflexivity|].
  split; [|split; [|reflexivity]].
  - split; [apply sort_ascending|]. split; [reflexivity|apply counts_eq].
  - apply foldl_addEvent_nil.
Qed.

(** X8: a reset the user does not confirm sends nothing and changes
    nothing.  A confirmed reset the server accepts leaves an empty array,
    an empty list, an empty calendar and counters at zero; one that is
    refused changes nothing. *)
Theorem resetTasks_outcome s :
  resetTasks9 false s = Finish s (Normal tt) /\
  exists k,
    resetTasks9 true s = Await s DELETE_reset k /\
    forall r,
      let s' := state_of (k r s) in
      no_request (k r s) = true /\
      match r with
      | Resolved data =>
          if ok data
          then tasks s' = [] /\ taskList s' = [] /\ calendar s' = [] /\
               overview s' = mkOverview 0 0 0 /\
               toast s' = toast s ++ ["All tasks cleared"]
          else s' = s
      | Rejected err => s' = set_console (console s ++ [err]) s
      end.
Proof.
  split; [reflexivity|]. eexists. split; [reflexivity|].
  intros [err|[[] u]]; cbn; repeat split.
Qed.

End Mutations.

Section ChatMore.

Variable toLocaleDateString : string -> string.
Variable toLocaleTimeString : string -> string.
Variable Server : Type.
Variable respond : forall R, Request R -> Server -> FetchResult R * Server.

Abbreviation shown10 := (shown toLocaleDateString toLocaleTimeString).
Abbreviation handleChatAction10 :=
  (handleChatAction toLocaleDateString toLocaleTimeString).
Abbreviation page_after10 evs srv :=
  (run_events toLocaleDateString toLocaleTimeString Server respond
     evs initial srv).1.

(** X9: on the page after any sequence of events, the number shown in
    front of a row is the number the chat resolves to the id behind that
    row's buttons. *)
Theorem ordinal_resolves_to_row_id evs srv i r :
  taskList (page_after10 evs srv) !! i = Some r ->
  getTaskIdByNumber (Val (Z.of_nat (ordinal r))) (page_after10 evs srv)
  = Finish (page_after10 evs srv) (Normal (Some (row_id r))).
Proof.
  destruct (run_events_shown toLocaleDateString toLocaleTimeString
              Server respond evs initial srv
              (initial_shown toLocaleDateString toLocaleTimeString))
    as (_ & Hrows & _).
  rewrite Hrows, list_lookup_imap.
  destruct (tasks (page_after10 evs srv) !! i) as [t|] eqn:Ht; [|done].
  intros [= <-]. cbn [ordinal row_id render_row].
  replace (Z.of_nat (i + 1)) with (Z.of_nat i + 1) by lia.
  by apply getTaskIdByNumber_in_range.
Qed.

(** X10: re-rendering a page that already shows its tasks changes
    nothing. *)
Theorem refresh_is_idempotent s :
  shown10 s -> calendar_shown s ->
  (renderTasks toLocaleDateString toLocaleTimeString;;
   renderCalendar;;
   updateOverview) s
  = Finish s (Normal tt).
Proof.
  intros (Hsorted & Hrows & Hcount) Hcal. unfold calendar_shown in Hcal.
  transitivity
    (Finish
       (set_overview (count_tasks (sort by_id (tasks s)))
          (set_calendar (foldl addEvent [] (sort by_id (tasks s)))
             (set_taskList
                (imap (render_row toLocaleDateString toLocaleTimeString)
                   (sort by_id (tasks s)))
                (set_tasks (sort by_id (tasks s)) s))))
       (Normal tt)).
  - rewrite <- counts_eq. reflexivity.
  - rewrite (sort_sorted _ Hsorted), foldl_addEvent_nil.
    rewrite <- Hrows, <- Hcount, <- Hcal. by destruct s.
Qed.

(** X11: an envelope without a function name never sends a request: its
    reply, if it has one, is appended to the transcript and that is all;
    no envelope at all does nothing. *)
Theorem plain_reply confirmed args reply s :
  handleChatAction10 confirmed None s = Finish s (Normal tt) /\
  handleChatAction10 confirmed (Some (mkAction Undefined args (Val reply))) s
  = Finish
      (if decide (reply = "") then s
       else set_chatMessages (chatMessages s ++ [mkChatMessage "ai" reply]) s)
      (Normal tt) /\
  handleChatAction10 confirmed (Some (mkAction Undefined args Undefined)) s
  = Finish s (Normal tt).
Proof.
  split; [reflexivity|]. split; [|reflexivity].
  destruct reply as [|c r]; reflexivity.
Qed.

(** X12: [deleteTask] from the chat with a number out of range appends the
    warning and does nothing else: no request, and [deletedTask] keeps
    what it had. *)
Theorem chat_deleteTask_out_of_range confirmed args s :
  out_of_range (js_or (task_number args) (task_id args)) (tasks s) ->
  handleChatAction10 confirmed (chat_action "deleteTask" args) s
  = Finish (warned s) (Normal tt).
Proof.
  intros Hn. unfold handleChatAction. cbn -[getTaskIdByNumber].
  unfold bind. by rewrite (getTaskIdByNumber_out_of_range _ _ Hn).
Qed.

(** X13: [completeTask] or [deleteTask] with no usable number at all
    (task_number missing, null or 0 and task_id missing) runs into the
    exception handler: the error is logged and shown in the transcript,
    no request is sent, nothing else changes, and the page is not
    rendered again. *)
Theorem chat_number_missing confirmed fn args s :
  fn = "completeTask" \/ fn = "deleteTask" ->
  truthy (task_number args) = false ->
  task_id args = Undefined ->
  exists err,
    handleChatAction10 confirmed (chat_action fn args) s
    = Finish
        (set_chatMessages (chatMessages s ++ [mkChatMessage "ai" ("⚠️ " +:+ err)])
           (set_console (console s ++ [err]) s))
        (Normal tt).
Proof.
  intros Hfn Hnum Hid.
  assert (Hor : js_or (task_number args) (task_id args) = Undefined).
  { unfold js_or. by rewrite Hnum. }
  exists TypeError_id.
  destruct Hfn as [-> | ->]; unfold handleChatAction;
    cbn -[getTaskIdByNumber]; unfold bind; rewrite Hor; reflexivity.
Qed.

(** X14: the chat reports success whatever became of the operation: after
    an [addTask], [undoDelete] or [resetAll] action the last line of the
    transcript is the confirmation, also when the request failed or was
    refused, when nothing was there to undo, when the description was
    missing, or when the user declined the reset. *)
Theorem chat_always_confirms confirmed args s :
  ends_with
    (fun s' => last (chatMessages s')
               = Some (mkChatMessage "ai"
                         ("✅ Added task: " +:+ to_text (a_description args))))
    (handleChatAction10 confirmed (chat_action "addTask" args) s) /\
  ends_with
    (fun s' => last (chatMessages s')
               = Some (mkChatMessage "ai" "♻️ Restored last deleted task"))
    (handleChatAction10 confirmed (chat_action "undoDelete" args) s) /\
  ends_with
    (fun s' => last (chatMessages s')
               = Some (mkChatMessage "ai" "🗑 Cleared all tasks"))
    (handleChatAction10 confirmed (chat_action "resetAll" args) s).
Proof.
  split; [|split];
    unfold handleChatAction, addTask, undoDelete, resetTasks;
    symbolic_run; apply last_snoc.
Qed.

(** X15: a chat message that is blank is ignored altogether.  Any other is
    trimmed (the white space around it taken off), put in the transcript
    and posted, and the input is emptied; if that request fails, or the
    server answers without [ok], the transcript gets an error line and
    nothing else changes. *)
Theorem sendMessage_outcome confirmed s :
  let msg := trim (chatInput s) in
  let sent :=
    set_chatInput ""
      (set_chatMessages (chatMessages s ++ [mkChatMessage "user" msg]) s) in
  let failed :=
    set_chatMessages (chatMessages sent ++ [mkChatMessage "ai" "⚠️ Error"]) in
  (blank (chatInput s) ->
   sendMessage toLocaleDateString toLocaleTimeString confirmed s
   = Finish s (Normal tt)) /\
  (¬ blank (chatInput s) ->
   trimmed_of (chatInput s) msg /\
   msg <> "" /\
   exists k,
     sendMessage toLocaleDateString toLocaleTimeString confirmed s
     = Await sent (POST_chat msg) k /\
     (forall err,
        k (Rejected err) sent
        = Finish (failed (set_console (console s ++ [err]) sent)) (Normal tt)) /\
     (forall result,
        k (Resolved (mkData false result)) sent
        = Finish (failed sent) (Normal tt)) /\
     (forall result,
        k (Resolved (mkData true result)) sent
        = try_catch
            (handleChatAction10 confirmed result)
            (fun err => console_error err;; appendMessage "⚠️ Error" "ai")
            sent)).
Proof.
  cbn zeta. rewrite blank_trim.
  pose proof (trim_trimmed_of (chatInput s)) as Htrimmed.
  unfold sendMessage, bind, gets. cbn.
  destruct (trim (chatInput s)) as [|c m]; cbn.
  - split; [done|]. by intros [].
  - split; [done|]. intros Hne. split; [exact Htrimmed|]. split; [exact Hne|].
    eexists. split; [reflexivity|]. split; [done|]. split; done.
Qed.

(** X16: only deleting, undoing and chatting can change [deletedTask]:
    the handler of any other event leaves it as it is, whatever the
    server answers. *)
Theorem deletedTask_frame ev s :
  leaves_deletedTask ev = true ->
  ends_with (fun s' => deletedTask s' = deletedTask s)
    (handler toLocaleDateString toLocaleTimeString ev s).
Proof.
  intros Hev. destruct ev; try discriminate Hev; clear Hev;
    unfold handler, loadTasks, addTaskFromUI, detached, addTask,
      toggleComplete, editTask, resetTasks;
    symbolic_run; reflexivity.
Qed.

Lemma run_deleteTask_accepted tid s srv srv1 idx task :
  find_task tid (tasks s) = Some (idx, task) ->
  respond _ (DELETE_task tid) srv = (Resolved (mkData true tt), srv1) ->
  exists s1,
    run Server respond
      (deleteTask toLocaleDateString toLocaleTimeString tid s) srv
    = (s1, srv1) /\
    tasks s1 = sort by_id (filter (λ t, id t ≠ tid) (tasks s)) /\
    deletedTask s1 = Some task.
Proof.
  intros Hfind Hdel. unfold deleteTask, bind, gets. cbn.
  rewrite Hfind. cbn. rewrite Hdel. cbn. by eexists.
Qed.

Lemma run_undoDelete_accepted s srv srv2 d restored :
  deletedTask s = Some d ->
  respond _ POST_undo_delete srv = (Resolved (mkData true restored), srv2) ->
  exists s2,
    run Server respond
      (undoDelete toLocaleDateString toLocaleTimeString s) srv
    = (s2, srv2) /\
    tasks s2 = sort by_id (tasks s ++ [restored]) /\
    deletedTask s2 = None.
Proof.
  intros Hd Hundo. unfold undoDelete, bind, gets. cbn.
  rewrite Hd. cbn. rewrite Hundo. cbn. by eexists.
Qed.

(** X17: deleting a task and then undoing, both accepted by the server,
    leaves the other tasks and the task the server gives back, in id
    order, and nothing more to undo. *)
Theorem delete_then_undo tid s srv srv1 srv2 restored :
  (exists t, t ∈ tasks s /\ id t = tid) ->
  respond _ (DELETE_task tid) srv = (Resolved (mkData true tt), srv1) ->
  respond _ POST_undo_delete srv1 = (Resolved (mkData true restored), srv2) ->
  let s' :=
    (run_events toLocaleDateString toLocaleTimeString Server respond
       [ClickDelete tid; ClickUndo] s srv).1 in
  tasks s' ≡ₚ filter (λ t, id t ≠ tid) (tasks s) ++ [restored] /\
  StronglySorted ascending (tasks s') /\
  deletedTask s' = None.
Proof.
  intros Hin Hdel Hundo.
  destruct (find_task_present tid (tasks s) Hin) as (idx & task & Hfind).
  destruct (run_deleteTask_accepted tid s srv srv1 idx task Hfind Hdel)
    as (s1 & Hrun1 & Htasks1 & Hdeleted1).
  destruct (run_undoDelete_accepted s1 srv1 srv2 task restored Hdeleted1 Hundo)
    as (s2 & Hrun2 & Htasks2 & Hdeleted2).
  cbn zeta. unfold run_events. cbn [foldl handler].
  rewrite Hrun1. cbn beta iota. cbn [handler]. rewrite Hrun2. cbn [fst].
  rewrite Htasks2, Htasks1.
  split; [|split; [apply sort_ascending|exact Hdeleted2]].
  by rewrite !sort_Permutation.
Qed.

End ChatMore.

(** ** The further properties at work on the scenario *)

Lemma handleChatAction_renders_witness :
  "viewTasks" ∈ ["addTask"; "viewTasks"; "undoDelete"; "resetAll"] /\
  ends_with
    (fun s' => shown (fun r => r) (fun r => r) s' /\ calendar_shown s')
    (handleChatAction (fun r => r) (fun r => r) false
       (chat_action "viewTasks" no_args) demo_page).
Proof.
  assert (H : "viewTasks" ∈ ["addTask"; "viewTasks"; "undoDelete"; "resetAll"]).
  { right. left. }
  split; [exact H|].
  exact (handleChatAction_renders (fun r => r) (fun r => r) false
           "viewTasks" no_args demo_page H).
Defined.

Lemma addTask_outcome_witness :
  "Buy milk" <> "" /\
  exists k,
    addTask (fun r => r) (fun r => r) (Val "Buy milk") Null initial
    = Await initial (POST_tasks "Buy milk" None) k.
Proof.
  assert (H : "Buy milk" <> "") by discriminate.
  split; [exact H|].
  destruct (addTask_outcome (fun r => r) (fun r => r) "Buy milk" Null initial H)
    as (k & Hk & _).
  exists k. exact Hk.
Defined.

Lemma addTaskFromUI_request_witness :
  ¬ blank (taskInput form_page) /\
  trimmed_of (taskInput form_page) "Buy milk" /\
  "Buy milk" <> "" /\
  exists k,
    addTaskFromUI (fun r => r) (fun r => r) form_page
    = Await initial (POST_tasks "Buy milk" (Some "2024-03-01T00:00")) k.
Proof.
  assert (H : ¬ blank (taskInput form_page)).
  { intros Hb%blank_trim. vm_compute in Hb. discriminate Hb. }
  split; [exact H|].
  exact (addTaskFromUI_request (fun r => r) (fun r => r) form_page H).
Defined.

Lemma unknown_id_is_ignored_witness :
  (forall t, t ∈ tasks milk_page -> id t <> 2) /\
  toggleComplete (fun r => r) (fun r => r) 2 milk_page
  = Finish milk_page (Normal tt) /\
  editTask (fun r => r) (fun r => r) 2 (Some "Buy bread") None milk_page
  = Finish milk_page (Normal tt) /\
  deleteTask (fun r => r) (fun r => r) 2 milk_page
  = Finish milk_page (Normal tt).
Proof.
  assert (H : forall t, t ∈ tasks milk_page -> id t <> 2).
  { intros t Ht. apply list_elem_of_singleton in Ht. subst t. discriminate. }
  split; [exact H|].
  exact (unknown_id_is_ignored (fun r => r) (fun r => r) 2
           (Some "Buy bread") None milk_page H).
Defined.

Lemma toggleComplete_outcome_witness :
  find_task 1 (tasks milk_page) = Some (0%nat, milk) /\
  exists k,
    toggleComplete (fun r => r) (fun r => r) 1 milk_page
    = Await milk_page (PATCH_completed 1 true) k.
Proof.
  split; [reflexivity|].
  destruct (toggleComplete_outcome (fun r => r) (fun r => r) 1 milk_page
              0%nat milk eq_refl) as (k & Hk & _).
  exists k. exact Hk.
Defined.

Lemma editTask_request_witness :
  find_task 1 (tasks milk_page) = Some (0%nat, milk) /\
  editTask (fun r => r) (fun r => r) 1 None (Some "") milk_page
  = Finish milk_page (Normal tt) /\
  trimmed_of (nbsp +:+ "Buy oat milk ") "Buy oat milk" /\
  exists k,
    editTask (fun r => r) (fun r => r) 1 (Some (nbsp +:+ "Buy oat milk "))
      (Some "") milk_page
    = Await milk_page (PATCH_edit 1 "Buy oat milk" None) k.
Proof.
  split; [reflexivity|].
  exact (editTask_request (fun r => r) (fun r => r) 1 milk_page 0%nat milk
           (nbsp +:+ "Buy oat milk ") (Some "") eq_refl).
Defined.

Lemma undoDelete_outcome_witness :
  deletedTask milk_deleted = Some milk /\
  exists k,
    undoDelete (fun r => r) (fun r => r) milk_deleted
    = Await milk_deleted POST_undo_delete k.
Proof.
  split; [reflexivity|].
  destruct (undoDelete_outcome (fun r => r) (fun r => r) milk_deleted milk
              eq_refl) as (k & Hk & _).
  exists k. exact Hk.
Defined.

Lemma ordinal_resolves_to_row_id_witness :
  let page :=
    (run_events (fun r => r) (fun r => r) unit demo_respond
       [PageLoad] initial tt).1 in
  let row := mkRow 1 "Buy milk" "" "" false 1 in
  taskList page !! 0%nat = Some row /\
  getTaskIdByNumber (Val (Z.of_nat (ordinal row))) page
  = Finish page (Normal (Some (row_id row))).
Proof.
  cbn zeta. split; [reflexivity|].
  apply (ordinal_resolves_to_row_id (fun r => r) (fun r => r) unit
           demo_respond [PageLoad] tt 0%nat).
  reflexivity.
Defined.

Lemma refresh_is_idempotent_witness :
  tasks synced_page = [mkTask 1 "Buy milk" true (Some "2024-03-01T09:00")] /\
  calendar synced_page = [mkCalendarEvent "1" "2024-03-01T09:00"] /\
  shown (fun r => r) (fun r => r) synced_page /\
  calendar_shown synced_page /\
  (renderTasks (fun r => r) (fun r => r);; renderCalendar;; updateOverview)
    synced_page
  = Finish synced_page (Normal tt).
Proof.
  assert (H1 : shown (fun r => r) (fun r => r) synced_page).
  { split; [|split; reflexivity]. repeat constructor. }
  assert (H2 : calendar_shown synced_page) by reflexivity.
  split; [reflexivity|]. split; [reflexivity|].
  split; [exact H1|]. split; [exact H2|].
  exact (refresh_is_idempotent (fun r => r) (fun r => r) synced_page H1 H2).
Defined.

Lemma chat_deleteTask_out_of_range_witness :
  let args := mkArgs Undefined Undefined (Val 7) Undefined in
  out_of_range (js_or (task_number args) (task_id args)) (tasks milk_page) /\
  handleChatAction (fun r => r) (fun r => r) false
    (chat_action "deleteTask" args) milk_page
  = Finish (warned milk_page) (Normal tt).
Proof.
  cbn zeta. split.
  - simpl. lia.
  - apply chat_deleteTask_out_of_range. simpl. lia.
Defined.

Lemma chat_number_missing_witness :
  truthy (task_number no_args) = false /\
  task_id no_args = Undefined /\
  exists err,
    handleChatAction (fun r => r) (fun r => r) false
      (chat_action "completeTask" no_args) milk_page
    = Finish
        (set_chatMessages
           (chatMessages milk_page ++ [mkChatMessage "ai" ("⚠️ " +:+ err)])
           (set_console (console milk_page ++ [err]) milk_page))
        (Normal tt).
Proof.
  split; [reflexivity|]. split; [reflexivity|].
  apply (chat_number_missing (fun r => r) (fun r => r) false "completeTask"
           no_args milk_page).
  - left. reflexivity.
  - reflexivity.
  - reflexivity.
Defined.

Lemma deletedTask_frame_witness :
  leaves_deletedTask (ClickToggle 1) = true /\
  ends_with (fun s' => deletedTask s' = deletedTask milk_deleted)
    (handler (fun r => r) (fun r => r) (ClickToggle 1) milk_deleted).
Proof.
  split; [reflexivity|].
  apply (deletedTask_frame (fun r => r) (fun r => r) (ClickToggle 1)
           milk_deleted).
  reflexivity.
Defined.

Lemma delete_then_undo_witness :
  let s' :=
    (run_events (fun r => r) (fun r => r) unit obliging_respond
       [ClickDelete 1; ClickUndo] milk_page tt).1 in
  (exists t, t ∈ tasks milk_page /\ id t = 1) /\
  tasks s' ≡ₚ filter (λ t, id t ≠ 1) (tasks milk_page) ++ [milk] /\
  StronglySorted ascending (tasks s') /\
  deletedTask s' = None.
Proof.
  assert (H : exists t, t ∈ tasks milk_page /\ id t = 1).
  { exists milk. split; [simpl; left | reflexivity]. }
  cbn zeta. split; [exact H|].
  exact (delete_then_undo (fun r => r) (fun r => r) unit obliging_respond
           1 milk_page tt tt tt milk H eq_refl eq_refl).
Defined.

Section CalendarFrame.

Variable toLocaleDateString : string -> string.
Variable toLocaleTimeString : string -> string.

Abbreviation handleChatAction12 :=
  (handleChatAction toLocaleDateString toLocaleTimeString).

(** X18: [viewTasks] sends nothing.  With no task it appends the single
    line "No tasks yet"; otherwise it appends one line per task, in array
    order: the number of the task counted from 1, its description, and
    the date and time of its reminder if it has one.  Then the list, the
    counters and the calendar are rendered again. *)
Theorem viewTasks_transcript confirmed args s :
  exists s' lines,
    handleChatAction12 confirmed (chat_action "viewTasks" args) s
    = Finish s' (Normal tt) /\
    chatMessages s' = chatMessages s ++ lines /\
    (tasks s = [] -> lines = [mkChatMessage "ai" "📋 No tasks yet."]) /\
    (tasks s <> [] ->
     length lines = length (tasks s) /\
     forall i t,
       tasks s !! i = Some t ->
       lines !! i
       = Some (mkChatMessage "ai"
                 (pretty (S i) +:+ ". " +:+ description t +:+ " "
                  +:+ reminder_text toLocaleDateString t +:+ " "
                  +:+ reminder_text toLocaleTimeString t))) /\
    tasks s' = sort by_id (tasks s) /\
    shown toLocaleDateString toLocaleTimeString s' /\
    calendar_shown s'.
Proof.
  assert (Htext : forall f t, formatted f (reminder t) = reminder_text f t).
  { intros f t. unfold formatted, reminder_text.
    destruct (reminder t) as [[|c r]|]; reflexivity. }
  unfold handleChatAction. cbn.
  destruct (tasks s) as [|t0 l] eqn:Hl; cbn; rewrite ?Hl.
  - eexists _, _. split; [reflexivity|]. cbn. rewrite ?Hl.
    split; [reflexivity|]. split; [done|]. split; [done|].
    split; [reflexivity|]. split; [|apply foldl_addEvent_nil].
    split; [apply sort_ascending|]. split; [reflexivity|apply counts_eq].
  - exists
      (set_overview (count_tasks (sort by_id (t0 :: l)))
         (set_calendar (foldl addEvent [] (sort by_id (t0 :: l)))
            (set_taskList
               (imap (render_row toLocaleDateString toLocaleTimeString)
                  (sort by_id (t0 :: l)))
               (set_tasks (sort by_id (t0 :: l))
                  (set_chatMessages
                     (chatMessages s
                      ++ imap (view_line toLocaleDateString toLocaleTimeString)
                           (t0 :: l)) s))))),
      (imap (view_line toLocaleDateString toLocaleTimeString) (t0 :: l)).
    split; [by rewrite <- counts_eq|].
    split; [reflexivity|]. split; [done|]. split.
    { intros _. split; [by rewrite length_imap|].
      intros i t Hi. rewrite list_lookup_imap, Hi. cbn. unfold view_line.
      rewrite !Htext. do 3 f_equal. unfold to_text, to_text_nat.
      f_equal. lia. }
    split; [reflexivity|]. split; [|apply foldl_addEvent_nil].
    split; [apply sort_ascending|]. split; reflexivity.
Qed.


(** X20: only a click on a row's toggle can leave the calendar behind the
    task array: if the calendar shows the tasks, it still does after the
    handler of any other event, chat included, whatever the server
    answers. *)
Theorem calendar_frame ev s :
  is_toggle ev = false ->
  calendar_shown s ->
  ends_with calendar_shown
    (handler toLocaleDateString toLocaleTimeString ev s).
Proof.
  intros Hev Hs. unfold calendar_shown in Hs.
  destruct ev; try discriminate Hev; clear Hev;
    unfold handler, loadTasks, addTaskFromUI, detached, sendMessage,
      handleChatAction, getTaskIdByNumber, addTask, toggleComplete, editTask,
      deleteTask, undoDelete, resetTasks;
    symbolic_run;
    first [exact Hs | apply foldl_addEvent_nil].
Qed.

End CalendarFrame.


Lemma calendar_frame_witness :
  calendar synced_page = [mkCalendarEvent "1" "2024-03-01T09:00"] /\
  is_toggle (ClickDelete 1) = false /\
  calendar_shown synced_page /\
  ends_with calendar_shown
    (handler (fun r => r) (fun r => r) (ClickDelete 1) synced_page).
Proof.
  split; [reflexivity|]. split; [reflexivity|]. split; [reflexivity|].
  apply (calendar_frame (fun r => r) (fun r => r) (ClickDelete 1) synced_page);
    reflexivity.
Defined.

Lemma completeTask_in_range_witness :
  let args := mkArgs Undefined Undefined (Val 1) Undefined in
  tasks milk_page !! 0%nat = Some milk /\
  id milk <> 0 /\
  exists k,
    handleChatAction (fun r => r) (fun r => r) false
      (chat_action "completeTask" args) milk_page
    = Await milk_page (PATCH_completed (id milk) (negb (completed milk))) k.
Proof.
  cbn zeta. split; [reflexivity|].
  assert (H : id milk <> 0) by discriminate.
  split; [exact H|].
  apply (completeTask_in_range (fun r => r) (fun r => r) false
           (mkArgs Undefined Undefined (Val 1) Undefined) milk_page 0%nat milk).
  - reflexivity.
  - reflexivity.
  - exact H.
  - intros j u _ Hj. lia.
Defined.

Lemma addTaskFromUI_blank_witness :
  blank (taskInput blank_form_page) /\
  addTaskFromUI (fun r => r) (fun r => r) blank_form_page
  = Finish
      (set_toast (toast blank_form_page ++ ["Enter task description"])
         blank_form_page)
      (Normal tt).
Proof.
  assert (H : blank (taskInput blank_form_page))
    by (apply blank_trim; reflexivity).
  split; [exact H|].
  exact (addTaskFromUI_blank (fun r => r) (fun r => r) blank_form_page H).
Defined.
